(** * Supervision of the Minecraft server process

    A shallow embedding of [server_manager.py] (class [MinecraftServer]) and of
    the process-control functions of [admin_panel.py], with the properties of
    the supervision protocol proved about them.

    Modelling conventions.
    - The operating system is a [World]: one answer function per primitive
      ([subprocess.Popen], [stdin.write], [poll], [terminate], ...), indexed by
      the number of calls the controller thread has made so far.  Every
      theorem quantifies over all worlds unless it names one.
    - The controller thread's calls are recorded, in order, in a trace of
      [Event]s.  Time is measured by the [ESleep] events of the trace.
    - A Python exception of class [Exception] is a value of [PyExc]; a
      computation returns [Ret v] or [Raise e], and [try_except] is Python's
      [try: ... except Exception].
    - The output-reader thread runs between the controller's calls: the world
      schedules, at each call, the loop iterations the reader performs while
      the call is in progress.
    - [logger] and [console.print] calls are kept as no-ops: what they write,
      to the terminal and to the file [minecraft_server_manager.log], is not
      part of the trace, and no statement here is about it. *)

From Stdlib Require Import String Ascii List Bool Arith ZArith Lia.
Import ListNotations.
Open Scope string_scope.
Open Scope nat_scope.
Open Scope list_scope.

(** ** Python strings

    A Python [str] is modelled by its UTF-8 encoding: the bytes below 128 are
    the ASCII characters, and the tests on ['='], ['#'] and the substrings of
    the code mean the same on the encoding as on the text. *)

(** [str.isspace] for a character of the ASCII range. *)
Definition is_space (c : ascii) : bool :=
  let n := nat_of_ascii c in
  ((9 <=? n) && (n <=? 13)) || ((28 <=? n) && (n <=? 32)).

(** [str.isspace] for a character of two bytes: U+0085 and U+00A0. *)
Definition is_space2 (b1 b2 : ascii) : bool :=
  let n1 := nat_of_ascii b1 in
  let n2 := nat_of_ascii b2 in
  (n1 =? 194) && ((n2 =? 133) || (n2 =? 160)).

(** [str.isspace] for a character of three bytes: U+1680, U+2000 to U+200A,
    U+2028, U+2029, U+202F, U+205F and U+3000. *)
Definition is_space3 (b1 b2 b3 : ascii) : bool :=
  let n1 := nat_of_ascii b1 in
  let n2 := nat_of_ascii b2 in
  let n3 := nat_of_ascii b3 in
  ((n1 =? 225) && (n2 =? 154) && (n3 =? 128))
  || ((n1 =? 226) && (n2 =? 128)
      && (((128 <=? n3) && (n3 <=? 138))
          || (n3 =? 168) || (n3 =? 169) || (n3 =? 175)))
  || ((n1 =? 226) && (n2 =? 129) && (n3 =? 159))
  || ((n1 =? 227) && (n2 =? 128) && (n3 =? 128)).

(** [s.lstrip()] *)
Fixpoint lstrip (s : string) : string :=
  match s with
  | EmptyString => EmptyString
  | String b1 r1 =>
      if is_space b1 then lstrip r1
      else
        match r1 with
        | EmptyString => s
        | String b2 r2 =>
            if is_space2 b1 b2 then lstrip r2
            else
              match r2 with
              | EmptyString => s
              | String b3 r3 => if is_space3 b1 b2 b3 then lstrip r3 else s
              end
        end
  end.

(** [s.lstrip()] on the reversed encoding, where the bytes of a character
    come last byte first. *)
Fixpoint lstrip_reversed (s : string) : string :=
  match s with
  | EmptyString => EmptyString
  | String b1 r1 =>
      if is_space b1 then lstrip_reversed r1
      else
        match r1 with
        | EmptyString => s
        | String b2 r2 =>
            if is_space2 b2 b1 then lstrip_reversed r2
            else
              match r2 with
              | EmptyString => s
              | String b3 r3 =>
                  if is_space3 b3 b2 b1 then lstrip_reversed r3 else s
              end
        end
  end.

Fixpoint rev_string (acc s : string) : string :=
  match s with
  | EmptyString => acc
  | String c r => rev_string (String c acc) r
  end.

(** [s.strip()]: the white space of Python, ASCII or not, is removed at both
    ends. *)
Definition strip (s : string) : string :=
  rev_string "" (lstrip_reversed (rev_string "" (lstrip s))).

(** [sub in s] *)
Fixpoint contains (sub s : string) : bool :=
  if String.prefix sub s then true
  else match s with
       | EmptyString => false
       | String _ r => contains sub r
       end.

(** Truth value of a string: [if line:] *)
Definition truthy (s : string) : bool :=
  match s with EmptyString => false | _ => true end.

Definition newline : string := String (ascii_of_nat 10) EmptyString.

(** ** The console ring of [MinecraftServer._capture_output]

    [self.console_log.append(line.strip())] followed by
    [if len(self.console_log) > self.max_console_lines: self.console_log.pop(0)]. *)
Definition append_line (max_console_lines : nat) (console_log : list string)
           (line : string) : list string :=
  let log := console_log ++ [line] in
  if max_console_lines <? length log then tl log else log.

(** ** The output buffer of [admin_panel.read_server_output]

    [if len(server_output_buffer) >= 100: server_output_buffer.pop(0)] followed
    by [server_output_buffer.append(line)]. *)
Definition buffer_limit : nat := 100.

Definition buffer_push (server_output_buffer : list string) (line : string)
  : list string :=
  let buf := if buffer_limit <=? length server_output_buffer
             then tl server_output_buffer else server_output_buffer in
  buf ++ [line].

(** The last [n] elements of a list, in their order. *)
Definition last_lines {A} (n : nat) (l : list A) : list A :=
  skipn (length l - n) l.

(** ** Exceptions, handles, events *)

(** Subclasses of Python's [Exception] that the primitives raise. *)
Inductive PyExc : Type :=
| FileNotFoundError
| FileExistsError
| PermissionError
| BrokenPipeError
| OSError
| RuntimeError
| AttributeError
| ValueError.

(** A [subprocess.Popen] object, named by its process id. *)
Definition Popen := nat.
(** A [threading.Thread] object, named by the time of its creation. *)
Definition Thread := nat.

(** The controller thread's calls into the operating system. *)
Inductive Event : Type :=
| EPopen (command : list string)
| EThreadStart
| EWrite (p : Popen) (data : string)
| EFlush (p : Popen)
| EPoll (p : Popen)
| ETerminate (p : Popen)
| EKill (p : Popen)
| ESleep (secs : nat)
| EExists (path : string)
| EMakedirs (path : string)
| ENow
| EZipOpen (file : string)
| EWalk (top : string)
| EZipWrite (filename arcname : string)
| EZipClose
| EChdir (path : string)
| EOpen (path : string).

(** Seconds slept by the controller thread along a trace. *)
Fixpoint elapsed (evs : list Event) : nat :=
  match evs with
  | [] => 0
  | ESleep n :: r => n + elapsed r
  | _ :: r => elapsed r
  end.

Definition is_spawn (e : Event) : bool :=
  match e with EPopen _ => true | _ => false end.

(** Events that reach a child process: a write or flush on its input stream,
    a poll, or a signal. *)
Definition touches_process (e : Event) : bool :=
  match e with
  | EWrite _ _ | EFlush _ | EPoll _ | ETerminate _ | EKill _ => true
  | _ => false
  end.

Definition is_stream_io (e : Event) : bool :=
  match e with EWrite _ _ | EFlush _ => true | _ => false end.

(** What the reader thread sees in one turn of its loop: the answer of
    [self.process.poll()] and of [self.process.stdout.readline()]. *)
Record ReaderObs : Type := {
  ro_poll : PyExc + option Z;
  ro_line : PyExc + string
}.

(** ** The operating system *)
Record World : Type := {
  os_popen : nat -> list string -> PyExc + Popen;
  os_thread_start : nat -> PyExc + unit;
  os_write : nat -> Popen -> string -> PyExc + unit;
  os_flush : nat -> Popen -> PyExc + unit;
  os_poll : nat -> Popen -> PyExc + option Z;
  os_terminate : nat -> Popen -> PyExc + unit;
  os_kill : nat -> Popen -> PyExc + unit;
  os_reader : nat -> list ReaderObs;
  fs_exists : nat -> string -> bool;
  fs_makedirs : nat -> string -> PyExc + unit;
  fs_chdir : nat -> string -> PyExc + unit;
  fs_open : nat -> string -> PyExc + unit;
  fs_walk : nat -> string -> list (string * list string);
  fs_relpath : string -> string;
  clock_strftime : nat -> string;
  zip_open : nat -> string -> PyExc + unit;
  zip_write : nat -> string -> string -> PyExc + unit;
  zip_close : nat -> PyExc + unit
}.

(** ** Computations: state, trace and exceptions *)

Inductive Res (A : Type) : Type :=
| Ret (a : A)
| Raise (e : PyExc).
Arguments Ret {A} a.
Arguments Raise {A} e.

Section Runtime.
(** The shared state and one scheduled turn of the background thread. *)
Variable S : Type.
Variable bg : ReaderObs -> S -> S.

Record Out (A : Type) : Type := mkOut {
  out_res : Res A;
  out_st : S;
  out_tr : list Event
}.
Arguments mkOut {A}.
Arguments out_res {A}.
Arguments out_st {A}.
Arguments out_tr {A}.

Definition M (A : Type) : Type := World -> S -> list Event -> Out A.

Definition ret {A} (a : A) : M A := fun _ s tr => mkOut (Ret a) s tr.

Definition raise {A} (e : PyExc) : M A := fun _ s tr => mkOut (Raise e) s tr.

Definition bind {A B} (m : M A) (k : A -> M B) : M B := fun w s tr =>
  let o := m w s tr in
  match out_res o with
  | Ret a => k a w (out_st o) (out_tr o)
  | Raise e => mkOut (Raise e) (out_st o) (out_tr o)
  end.

(** [try: m except Exception as e: h e] *)
Definition try_except {A} (m : M A) (h : PyExc -> M A) : M A := fun w s tr =>
  let o := m w s tr in
  match out_res o with
  | Ret a => o
  | Raise e => h e w (out_st o) (out_tr o)
  end.

Definition get : M S := fun _ s tr => mkOut (Ret s) s tr.

Definition modify (f : S -> S) : M unit := fun _ s tr => mkOut (Ret tt) (f s) tr.

(** The background thread's turns, in order. *)
Definition interleave (obs : list ReaderObs) (s : S) : S :=
  fold_left (fun s o => bg o s) obs s.

(** A call into the operating system: the event is recorded, the world
    answers, and the background thread takes the turns the world schedules
    for it while the call is in progress. *)
Definition call {A} (ev : Event) (answer : World -> nat -> PyExc + A) : M A :=
  fun w s tr =>
    let t := length tr in
    mkOut (match answer w t with inl e => Raise e | inr a => Ret a end)
          (interleave (os_reader w t) s)
          (tr ++ [ev]).
End Runtime.

Arguments mkOut {S A}.
Arguments out_res {S A}.
Arguments out_st {S A}.
Arguments out_tr {S A}.
Arguments ret {S A}.
Arguments raise {S A}.
Arguments bind {S A B}.
Arguments try_except {S A}.
Arguments get {S}.
Arguments modify {S}.
Arguments interleave {S} bg.
Arguments call {S} bg {A}.

Declare Scope py_scope.
Delimit Scope py_scope with py.
Notation "x <- m ;; k" := (bind m (fun x => k))
  (at level 61, m at next level, right associativity) : py_scope.
Notation "m ;; k" := (bind m (fun _ => k))
  (at level 61, right associativity) : py_scope.
Open Scope py_scope.

Definition is_some {A} (o : option A) : bool :=
  match o with Some _ => true | None => false end.

(** [os.path.join] (POSIX). *)
Definition path_join (a b : string) : string :=
  if String.prefix "/" b then b
  else match a with
       | EmptyString => b
       | _ => if String.prefix "/" (rev_string "" a)
              then (a ++ b)%string else (a ++ "/" ++ b)%string
       end.

(** * server_manager.py *)
Module ServerManager.

Definition SERVER_JAR : string := "server.jar".
Definition MIN_RAM : string := "1G".
Definition MAX_RAM : string := "4G".
Definition JAVA_PATH : string := "java".
Definition SERVER_PORT : Z := 25565.

(** The attributes of a [MinecraftServer] object. *)
Record MinecraftServer : Type := mkServer {
  server_jar : string;
  min_ram : string;
  max_ram : string;
  java_path : string;
  server_port : Z;
  process : option Popen;
  is_running : bool;
  output_thread : option Thread;
  console_log : list string;
  max_console_lines : nat
}.

Definition set_process (v : option Popen) (s : MinecraftServer) :=
  mkServer (server_jar s) (min_ram s) (max_ram s) (java_path s) (server_port s)
           v (is_running s) (output_thread s) (console_log s)
           (max_console_lines s).

Definition set_is_running (v : bool) (s : MinecraftServer) :=
  mkServer (server_jar s) (min_ram s) (max_ram s) (java_path s) (server_port s)
           (process s) v (output_thread s) (console_log s)
           (max_console_lines s).

Definition set_output_thread (v : option Thread) (s : MinecraftServer) :=
  mkServer (server_jar s) (min_ram s) (max_ram s) (java_path s) (server_port s)
           (process s) (is_running s) v (console_log s)
           (max_console_lines s).

Definition set_console_log (v : list string) (s : MinecraftServer) :=
  mkServer (server_jar s) (min_ram s) (max_ram s) (java_path s) (server_port s)
           (process s) (is_running s) (output_thread s) v
           (max_console_lines s).

(** [MinecraftServer.__init__]; its check of the jar file only logs. *)
Definition init (server_jar min_ram max_ram java_path : string)
           (server_port : Z) : MinecraftServer :=
  mkServer server_jar min_ram max_ram java_path server_port
           None false None [] 1000.

Definition default : MinecraftServer :=
  init SERVER_JAR MIN_RAM MAX_RAM JAVA_PATH SERVER_PORT.

(** The object together with the number of threads that are executing
    [_capture_output] on it. *)
Record Sys : Type := mkSys {
  self : MinecraftServer;
  readers : nat
}.

Definition on_self (f : MinecraftServer -> MinecraftServer) (sy : Sys) : Sys :=
  mkSys (f (self sy)) (readers sy).

Definition add_reader (sy : Sys) : Sys := mkSys (self sy) (S (readers sy)).

(** ** [_capture_output], one turn of its loop

    The result says whether the thread goes on.  Leaving the loop, by its
    condition or by an exception, sets [is_running] to [False]. *)
Definition capture_turn (o : ReaderObs) (s : MinecraftServer)
  : MinecraftServer * bool :=
  if is_running s && is_some (process s) then
    match ro_poll o with
    | inr None =>
        match ro_line o with
        | inr line =>
            if truthy line
            then (set_console_log
                    (append_line (max_console_lines s) (console_log s)
                                 (strip line)) s, true)
            else (s, true)
        | inl _ => (set_is_running false s, false)
        end
    | inr (Some _) => (set_is_running false s, false)
    | inl _ => (set_is_running false s, false)
    end
  else (set_is_running false s, false).

Definition reader_turn (o : ReaderObs) (sy : Sys) : Sys :=
  match readers sy with
  | 0 => sy
  | S n =>
      let r := capture_turn o (self sy) in
      mkSys (fst r) (if snd r then S n else n)
  end.

Definition Py (A : Type) : Type := M Sys A.

(** ** Primitives *)
Definition get_self : Py MinecraftServer := sy <- get ;; ret (self sy).

Definition set_self (f : MinecraftServer -> MinecraftServer) : Py unit :=
  modify (on_self f).

Definition world : Py World := fun w s tr => mkOut (Ret w) s tr.

Definition clock : Py nat := fun _ s tr => mkOut (Ret (length tr)) s tr.

(** [logger.info], [logger.warning] and [logger.error]: the record goes to
    the terminal and to [minecraft_server_manager.log]; neither is part of
    the trace. *)
Definition logger_info (msg : string) : Py unit := ret tt.
Definition logger_warning (msg : string) : Py unit := ret tt.
Definition logger_error (msg : string) : Py unit := ret tt.

Definition subprocess_Popen (command : list string) : Py Popen :=
  call reader_turn (EPopen command) (fun w t => os_popen w t command).

(** [Thread.start]: on success one more thread executes [_capture_output]. *)
Definition thread_start : Py unit := fun w s tr =>
  let t := length tr in
  match os_thread_start w t with
  | inl e => mkOut (Raise e) (interleave reader_turn (os_reader w t) s)
                   (tr ++ [EThreadStart])
  | inr _ => mkOut (Ret tt)
                   (interleave reader_turn (os_reader w t) (add_reader s))
                   (tr ++ [EThreadStart])
  end.

Definition stdin_write (p : Popen) (data : string) : Py unit :=
  call reader_turn (EWrite p data) (fun w t => os_write w t p data).

Definition stdin_flush (p : Popen) : Py unit :=
  call reader_turn (EFlush p) (fun w t => os_flush w t p).

Definition poll (p : Popen) : Py (option Z) :=
  call reader_turn (EPoll p) (fun w t => os_poll w t p).

Definition terminate (p : Popen) : Py unit :=
  call reader_turn (ETerminate p) (fun w t => os_terminate w t p).

Definition kill (p : Popen) : Py unit :=
  call reader_turn (EKill p) (fun w t => os_kill w t p).

Definition time_sleep (secs : nat) : Py unit :=
  call reader_turn (ESleep secs) (fun _ _ => inr tt).

Definition path_exists (path : string) : Py bool :=
  call reader_turn (EExists path) (fun w t => inr (fs_exists w t path)).

Definition makedirs (path : string) : Py unit :=
  call reader_turn (EMakedirs path) (fun w t => fs_makedirs w t path).

Definition strftime : Py string :=
  call reader_turn ENow (fun w t => inr (clock_strftime w t)).

Definition os_walk (top : string) : Py (list (string * list string)) :=
  call reader_turn (EWalk top) (fun w t => inr (fs_walk w t top)).

Definition ZipFile_open (file : string) : Py unit :=
  call reader_turn (EZipOpen file) (fun w t => zip_open w t file).

Definition ZipFile_write (filename arcname : string) : Py unit :=
  call reader_turn (EZipWrite filename arcname)
       (fun w t => zip_write w t filename arcname).

Definition ZipFile_close : Py unit :=
  call reader_turn EZipClose (fun w t => zip_close w t).

(** [self.process], dereferenced: [None] has no [stdin], [poll], ... *)
Definition the_process : Py Popen :=
  s <- get_self ;;
  match process s with
  | Some p => ret p
  | None => raise AttributeError
  end.

Fixpoint for_each {A} (l : list A) (body : A -> Py unit) : Py unit :=
  match l with
  | [] => ret tt
  | x :: r => body x ;; for_each r body
  end.

(** [with zipfile.ZipFile(file, 'w', ...) as zipf: body]: the archive is
    closed on the way out, also when [body] raises. *)
Definition with_ZipFile {A} (file : string) (body : Py A) : Py A :=
  ZipFile_open file ;;
  fun w s tr =>
    let o := body w s tr in
    let c := ZipFile_close w (out_st o) (out_tr o) in
    match out_res c with
    | Raise e => mkOut (Raise e) (out_st c) (out_tr c)
    | Ret _ => mkOut (out_res o) (out_st c) (out_tr c)
    end.

(** ** [send_command] *)
Definition send_command (command : string) : Py bool :=
  s <- get_self ;;
  if negb (is_running s) || negb (is_some (process s)) then
    logger_error "No se puede enviar comando: el servidor no está en ejecución." ;;
    ret false
  else
    try_except
      (p <- the_process ;;
       stdin_write p (command ++ newline)%string ;;
       p <- the_process ;;
       stdin_flush p ;;
       logger_info ("Comando enviado: " ++ command)%string ;;
       ret true)
      (fun e =>
         logger_error "Error al enviar comando" ;;
         ret false).

(** ** [start] *)
Definition server_ready_line (line : string) : bool :=
  contains "Done" line && contains "For help, type" line.

(** The readiness loop [for _ in range(max_wait_time)]: [inl b] when the
    loop executes [return b], [inr server_ready] when it is left by [break]
    or by exhaustion. *)
Fixpoint start_wait (n : nat) : Py (bool + bool) :=
  match n with
  | 0 => ret (inr false)
  | S n' =>
      s <- get_self ;;
      if negb (is_running s) then
        logger_error "El servidor se detuvo durante el inicio." ;;
        ret (inl false)
      else if existsb server_ready_line (console_log s) then ret (inr true)
      else time_sleep 1 ;; start_wait n'
  end.

Definition max_wait_time : nat := 60.

Definition start_command (s : MinecraftServer) : list string :=
  [ java_path s; ("-Xms" ++ min_ram s)%string; ("-Xmx" ++ max_ram s)%string;
    "-jar"; server_jar s; "nogui" ].

Definition start : Py bool :=
  s <- get_self ;;
  if is_running s then
    logger_warning "El servidor ya está en ejecución." ;;
    ret true
  else
    try_except
      (s <- get_self ;;
       let command := start_command s in
       p <- subprocess_Popen command ;;
       set_self (set_process (Some p)) ;;
       set_self (set_is_running true) ;;
       th <- clock ;;
       set_self (set_output_thread (Some th)) ;;
       thread_start ;;
       logger_info "Servidor iniciado. Esperando a que esté listo..." ;;
       r <- start_wait max_wait_time ;;
       match r with
       | inl b => ret b
       | inr server_ready =>
           if server_ready then
             logger_info "¡Servidor completamente cargado y listo!" ;;
             ret true
           else
             logger_warning "El servidor se está iniciando, pero está tardando más de lo esperado." ;;
             ret true
       end)
      (fun e =>
         logger_error "Error al iniciar el servidor" ;;
         set_self (set_is_running false) ;;
         ret false).

(** ** [stop] *)

(** The loop [for _ in range(timeout)]: [Some b] when it executes
    [return b], [None] when it is exhausted. *)
Fixpoint stop_wait (n : nat) : Py (option bool) :=
  match n with
  | 0 => ret None
  | S n' =>
      p <- the_process ;;
      c <- poll p ;;
      match c with
      | Some _ =>
          set_self (set_is_running false) ;;
          logger_info "Servidor detenido correctamente." ;;
          ret (Some true)
      | None => time_sleep 1 ;; stop_wait n'
      end
  end.

Definition stop (timeout : Z) : Py bool :=
  s <- get_self ;;
  if negb (is_running s) || negb (is_some (process s)) then
    logger_warning "El servidor no está en ejecución." ;;
    ret true
  else
    try_except
      (logger_info "Guardando mundo..." ;;
       send_command "save-all" ;;
       time_sleep 2 ;;
       logger_info "Enviando comando de detención..." ;;
       send_command "stop" ;;
       r <- stop_wait (Z.to_nat timeout) ;;
       match r with
       | Some b => ret b
       | None =>
           logger_warning "El servidor no responde. Forzando la terminación..." ;;
           s <- get_self ;;
           (if is_some (process s) then
              p <- the_process ;;
              terminate p ;;
              time_sleep 2 ;;
              p <- the_process ;;
              c <- poll p ;;
              match c with
              | None => p <- the_process ;; kill p
              | Some _ => ret tt
              end
            else ret tt) ;;
           set_self (set_is_running false) ;;
           logger_info "Servidor detenido forzosamente." ;;
           ret true
       end)
      (fun e =>
         logger_error "Error al detener el servidor" ;;
         ret false).

(** ** [get_console_output]: [self.console_log[-lines:]] *)
Definition get_console_output (lines : Z) (s : MinecraftServer) : list string :=
  let log := console_log s in
  if (0 <? lines)%Z then skipn (length log - Z.to_nat lines) log
  else skipn (Z.to_nat (- lines)) log.

(** ** [is_server_running] *)
Definition is_server_running : Py bool :=
  s <- get_self ;;
  if negb (is_running s) || negb (is_some (process s)) then ret false
  else
    p <- the_process ;;
    c <- poll p ;;
    match c with
    | Some _ => set_self (set_is_running false) ;; ret false
    | None => ret true
    end.

(** ** [restart] *)
Definition restart (timeout : Z) : Py bool :=
  logger_info "Reiniciando servidor..." ;;
  ok <- stop timeout ;;
  if negb ok then
    logger_error "Error al detener el servidor durante el reinicio." ;;
    ret false
  else
    time_sleep 5 ;;
    start.

(** ** [backup_world] *)
Definition backup_world (backup_dir : string) : Py (option string) :=
  found <- path_exists "world" ;;
  if negb found then
    logger_error "No se encuentra el directorio del mundo para hacer respaldo." ;;
    ret None
  else
    makedirs backup_dir ;;
    try_except
      (timestamp <- strftime ;;
       let backup_file :=
         path_join backup_dir ("world_backup_" ++ timestamp ++ ".zip")%string in
       s <- get_self ;;
       (if is_running s then
          logger_info "Guardando el mundo antes de hacer respaldo..." ;;
          send_command "save-all" ;;
          time_sleep 5
        else ret tt) ;;
       with_ZipFile backup_file
         (w <- world ;;
          tree <- os_walk "world" ;;
          for_each tree (fun entry =>
            for_each (snd entry) (fun file =>
              let filepath := path_join (fst entry) file in
              ZipFile_write filepath (fs_relpath w filepath)))) ;;
       logger_info ("Respaldo completado: " ++ backup_file)%string ;;
       ret (Some backup_file))
      (fun e =>
         logger_error "Error al hacer respaldo del mundo" ;;
         ret None).

(** ** Public operations, as data *)
Inductive Op : Type :=
| OStart
| OStop (timeout : Z)
| OSendCommand (command : string)
| OIsServerRunning
| ORestart (timeout : Z)
| OBackupWorld (backup_dir : string).

(** One public operation; an exception that escapes it is discarded here, as
    by a caller that catches it. *)
Definition run_op (op : Op) (w : World) (c : Sys * list Event)
  : Sys * list Event :=
  let s := fst c in
  let tr := snd c in
  match op with
  | OStart => let o := start w s tr in (out_st o, out_tr o)
  | OStop t => let o := stop t w s tr in (out_st o, out_tr o)
  | OSendCommand cmd => let o := send_command cmd w s tr in (out_st o, out_tr o)
  | OIsServerRunning => let o := is_server_running w s tr in (out_st o, out_tr o)
  | ORestart t => let o := restart t w s tr in (out_st o, out_tr o)
  | OBackupWorld d => let o := backup_world d w s tr in (out_st o, out_tr o)
  end.

Definition run_ops (ops : list Op) (w : World) (c : Sys * list Event)
  : Sys * list Event :=
  fold_left (fun c op => run_op op w c) ops c.

(** A supervisor that has just been constructed. *)
Definition fresh : Sys := mkSys default 0.

End ServerManager.

(** * admin_panel.py: the process-control functions *)
Module AdminPanel.

Definition SERVER_DIR : string := "C:\MinecraftServer\1.12.2".
Definition SERVER_JAR : string := "C:\MinecraftServer\1.12.2\server.jar".

(** The module's global variables, and the number of threads that are
    executing [read_server_output]. *)
Record Globals : Type := mkGlobals {
  server_process : option Popen;
  server_output_buffer : list string;
  server_output_thread : option Thread;
  readers : nat
}.

Definition set_server_process (v : option Popen) (g : Globals) :=
  mkGlobals v (server_output_buffer g) (server_output_thread g) (readers g).

Definition set_server_output_buffer (v : list string) (g : Globals) :=
  mkGlobals (server_process g) v (server_output_thread g) (readers g).

Definition set_server_output_thread (v : option Thread) (g : Globals) :=
  mkGlobals (server_process g) (server_output_buffer g) v (readers g).

Definition set_readers (v : nat) (g : Globals) :=
  mkGlobals (server_process g) (server_output_buffer g)
            (server_output_thread g) v.

(** The module as loaded. *)
Definition initial : Globals := mkGlobals None [] None 0.

(** ** [read_server_output], one turn of its loop

    The result says whether the thread goes on.  End of stream and an
    exception both end the thread, which then forgets the process. *)
Definition read_turn (o : ReaderObs) (g : Globals) : Globals * bool :=
  match ro_line o with
  | inr line =>
      if truthy line then
        let line := strip line in
        if truthy line
        then (set_server_output_buffer
                (buffer_push (server_output_buffer g) line) g, true)
        else (g, true)
      else (set_server_process None g, false)
  | inl _ => (set_server_process None g, false)
  end.

Definition reader_turn (o : ReaderObs) (g : Globals) : Globals :=
  match readers g with
  | 0 => g
  | S n =>
      let r := read_turn o g in
      set_readers (if snd r then S n else n) (fst r)
  end.

Definition Py (A : Type) : Type := M Globals A.

Definition clock : Py nat := fun _ s tr => mkOut (Ret (length tr)) s tr.

Definition console_print (msg : string) : Py unit := ret tt.

Definition poll (p : Popen) : Py (option Z) :=
  call reader_turn (EPoll p) (fun w t => os_poll w t p).

Definition stdin_write (p : Popen) (data : string) : Py unit :=
  call reader_turn (EWrite p data) (fun w t => os_write w t p data).

Definition stdin_flush (p : Popen) : Py unit :=
  call reader_turn (EFlush p) (fun w t => os_flush w t p).

Definition os_chdir (path : string) : Py unit :=
  call reader_turn (EChdir path) (fun w t => fs_chdir w t path).

Definition open_file (path : string) : Py unit :=
  call reader_turn (EOpen path) (fun w t => fs_open w t path).

Definition subprocess_Popen (command : list string) : Py Popen :=
  call reader_turn (EPopen command) (fun w t => os_popen w t command).

(** [Thread.start]: the new thread returns at once when [server_process] is
    [None], and executes the loop of [read_server_output] otherwise. *)
Definition thread_start : Py unit := fun w g tr =>
  let t := length tr in
  match os_thread_start w t with
  | inl e => mkOut (Raise e) (interleave reader_turn (os_reader w t) g)
                   (tr ++ [EThreadStart])
  | inr _ =>
      let g' := if is_some (server_process g)
                then set_readers (S (readers g)) g else g in
      mkOut (Ret tt) (interleave reader_turn (os_reader w t) g')
            (tr ++ [EThreadStart])
  end.

Definition the_process : Py Popen :=
  g <- get ;;
  match server_process g with
  | Some p => ret p
  | None => raise AttributeError
  end.

(** ** [is_server_running] *)
Definition is_server_running : Py bool :=
  g <- get ;;
  match server_process g with
  | None => ret false
  | Some p =>
      c <- poll p ;;
      ret (negb (is_some c))
  end.

(** ** [start_server] *)
Definition start_server : Py bool :=
  running <- is_server_running ;;
  if running then
    console_print "[yellow]El servidor ya está en funcionamiento[/yellow]" ;;
    ret true
  else
    try_except
      (os_chdir SERVER_DIR ;;
       modify (set_server_output_buffer []) ;;
       open_file (SERVER_DIR ++ "\server.log")%string ;;
       p <- subprocess_Popen
              ["java"; "-Xmx2G"; "-Xms1G"; "-jar"; SERVER_JAR; "nogui"] ;;
       modify (set_server_process (Some p)) ;;
       th <- clock ;;
       modify (set_server_output_thread (Some th)) ;;
       thread_start ;;
       console_print "[green]Servidor iniciado correctamente[/green]" ;;
       ret true)
      (fun e =>
         console_print "[red]Error al iniciar el servidor[/red]" ;;
         ret false).

(** ** [send_command] *)
Definition send_command (command : string) : Py bool :=
  running <- is_server_running ;;
  if negb running then
    console_print "[red]El servidor no está en funcionamiento[/red]" ;;
    ret false
  else
    try_except
      (p <- the_process ;;
       stdin_write p (command ++ newline)%string ;;
       p <- the_process ;;
       stdin_flush p ;;
       ret true)
      (fun e =>
         console_print "[red]Error al enviar comando[/red]" ;;
         ret false).

End AdminPanel.

(** * admin_panel.py: [server.properties] *)
Module ServerProperties.

(** [s.split(sep, 1)] when it has two parts: the text before the first [sep]
    and the text after it.  [None] when [sep] does not occur, the split then
    having one part. *)
Fixpoint split_once (sep : ascii) (s : string) : option (string * string) :=
  match s with
  | EmptyString => None
  | String c r =>
      if Ascii.eqb c sep then Some (EmptyString, r)
      else match split_once sep r with
           | Some (a, b) => Some (String c a, b)
           | None => None
           end
  end.

(** A [dict] of strings, in insertion order. *)
Definition Dict : Type := list (string * string).

(** [d[k] = v] *)
Fixpoint dict_set (k v : string) (d : Dict) : Dict :=
  match d with
  | [] => [(k, v)]
  | (k', v') :: r =>
      if String.eqb k k' then (k', v) :: r else (k', v') :: dict_set k v r
  end.

(** [d.get(k)] *)
Fixpoint dict_get (k : string) (d : Dict) : option string :=
  match d with
  | [] => None
  | (k', v') :: r => if String.eqb k k' then Some v' else dict_get k r
  end.

(** The body of the loop [for line in f] of [get_server_properties]. *)
Definition read_line (properties : Dict) (line : string) : Dict :=
  let line := strip line in
  if truthy line && negb (String.prefix "#" line) then
    match split_once "="%char line with
    | Some (key, value) => dict_set key value properties
    | None => properties
    end
  else properties.

(** What opening and reading [server.properties] gives: the file is absent,
    or the loop [for line in f] is given [lines] and then ends ([None]) or
    raises.  Which lines come before an exception is up to the reading of the
    file: a decoding error can come before the first line. *)
Inductive PropertiesFile : Type :=
| Absent
| Readable (lines : list string) (failure : option PyExc).

(** [get_server_properties]: the [except] clause only prints, and the
    dictionary built so far is returned. *)
Definition get_server_properties (f : PropertiesFile) : Dict :=
  match f with
  | Absent => []
  | Readable lines _ => fold_left read_line lines []
  end.

End ServerProperties.

(** * Vocabulary of the properties *)

(** The reader thread of [MinecraftServer] keeps the console log within
    [max_console_lines], whatever it reads. *)
Definition log_bounded (sy : ServerManager.Sys) : Prop :=
  length (ServerManager.console_log (ServerManager.self sy))
  <= ServerManager.max_console_lines (ServerManager.self sy).




(** A turn of the reader in which the child is alive and the line read, if
    any, is not the readiness line. *)
Definition quiet (o : ReaderObs) : Prop :=
  ro_poll o = inr None /\
  exists line, ro_line o = inr line /\
               ServerManager.server_ready_line (strip line) = false.

Definition quiet_world (w : World) : Prop :=
  forall t o, In o (os_reader w t) -> quiet o.

Definition no_ready_line (sy : ServerManager.Sys) : Prop :=
  existsb ServerManager.server_ready_line
          (ServerManager.console_log (ServerManager.self sy)) = false.

Definition live (sy : ServerManager.Sys) : Prop :=
  ServerManager.is_running (ServerManager.self sy) = true /\
  is_some (ServerManager.process (ServerManager.self sy)) = true.

(** [is_running] set implies a process handle. *)
Definition handle_while_running (sy : ServerManager.Sys) : Prop :=
  ServerManager.is_running (ServerManager.self sy) = true ->
  is_some (ServerManager.process (ServerManager.self sy)) = true.

Definition has_handle (sy : ServerManager.Sys) : Prop :=
  is_some (ServerManager.process (ServerManager.self sy)) = true.

(** A computation keeps [P]: from a state with [P] it ends, by return or by
    exception, in a state with [P]. *)
Definition keeps {S : Type} (P : S -> Prop) {A} (m : M S A) : Prop :=
  forall w s tr, P s -> P (out_st (m w s tr)).

(** ** Worlds used as concrete inputs *)

(** A world in which [Popen] answers [popen], a write on the child's input
    answers [write], [poll] at time [t] answers [polled t], [os.makedirs]
    answers [mkdirs]; every other call succeeds, the ["world"] directory
    exists and holds one file, and the reader thread is given the turns
    [turns t] at time [t]. *)
Definition a_world (popen : PyExc + Popen) (write : PyExc + unit)
           (polled : nat -> PyExc + option Z) (mkdirs : PyExc + unit)
           (turns : nat -> list ReaderObs) : World :=
  {| os_popen := fun _ _ => popen;
     os_thread_start := fun _ => inr tt;
     os_write := fun _ _ _ => write;
     os_flush := fun _ _ => inr tt;
     os_poll := fun t _ => polled t;
     os_terminate := fun _ _ => inr tt;
     os_kill := fun _ _ => inr tt;
     os_reader := turns;
     fs_exists := fun _ _ => true;
     fs_makedirs := fun _ _ => mkdirs;
     fs_chdir := fun _ _ => inr tt;
     fs_open := fun _ _ => inr tt;
     fs_walk := fun _ _ => [("world", ["level.dat"])];
     fs_relpath := fun p => p;
     clock_strftime := fun _ => "20240101_120000";
     zip_open := fun _ _ => inr tt;
     zip_write := fun _ _ _ => inr tt;
     zip_close := fun _ => inr tt |}.

Definition alive : nat -> PyExc + option Z := fun _ => inr None.
Definition idle : nat -> list ReaderObs := fun _ => [].

(** The child runs and ignores everything short of a kill. *)
Definition stubborn_world : World := a_world (inr 1) (inr tt) alive (inr tt) idle.

(** The child exits with status 0 once it has been told to stop: it is found
    dead from the sixth call on. *)
Definition obedient_world : World :=
  a_world (inr 1) (inr tt)
          (fun t => if 5 <=? t then inr (Some 0%Z) else inr None)
          (inr tt) idle.

(** The child has closed its input stream but is still in the process table. *)
Definition broken_pipe_world : World :=
  a_world (inr 1) (inl BrokenPipeError) alive (inr tt) idle.

(** There is no [java] executable. *)
Definition no_java_world : World :=
  a_world (inl FileNotFoundError) (inr tt) alive (inr tt) idle.

(** ["backups"] exists and is a regular file. *)
Definition backups_is_a_file_world : World :=
  a_world (inr 1) (inr tt) alive (inl FileExistsError) idle.

(** The child logs a line that is not the readiness line during every call,
    and stays alive. *)
Definition chatty_world : World :=
  a_world (inr 1) (inr tt) alive (inr tt)
          (fun _ => [ {| ro_poll := inr None;
                         ro_line := inr ("[Server thread/INFO]: Preparing spawn area"
                                           ++ newline)%string |} ]).

(** A supervisor whose child, process 1, is running, with its reader thread. *)
Definition running_server : ServerManager.Sys :=
  ServerManager.mkSys
    (ServerManager.set_is_running true
       (ServerManager.set_output_thread (Some 1)
          (ServerManager.set_process (Some 1) ServerManager.default)))
    1.

(** The admin panel with process 1 started. *)
Definition running_panel : AdminPanel.Globals :=
  AdminPanel.mkGlobals (Some 1) [] (Some 3) 1.



(** Every [Popen] succeeds, the child started at time [t] being process
    [100 + t]; no child ever exits; the reader thread's [readline] raises
    while it is being started for the first child. *)
Definition reader_dies_world : World :=
  {| os_popen := fun t _ => inr (100 + t);
     os_thread_start := fun _ => inr tt;
     os_write := fun _ _ _ => inr tt;
     os_flush := fun _ _ => inr tt;
     os_poll := fun _ _ => inr None;
     os_terminate := fun _ _ => inr tt;
     os_kill := fun _ _ => inr tt;
     os_reader := fun t => if t =? 1
                           then [ {| ro_poll := inr None;
                                     ro_line := inl OSError |} ]
                           else [];
     fs_exists := fun _ _ => true;
     fs_makedirs := fun _ _ => inr tt;
     fs_chdir := fun _ _ => inr tt;
     fs_open := fun _ _ => inr tt;
     fs_walk := fun _ _ => [];
     fs_relpath := fun p => p;
     clock_strftime := fun _ => "20240101_120000";
     zip_open := fun _ _ => inr tt;
     zip_write := fun _ _ _ => inr tt;
     zip_close := fun _ => inr tt |}.

(** ** Vocabulary of the further properties *)

(** A computation that starts with [P] and returns [a] ends with [Q a]. *)
Definition hoare {S A : Type} (P : S -> Prop) (m : M S A) (Q : A -> S -> Prop)
  : Prop :=
  forall w s tr, P s ->
    forall a, out_res (m w s tr) = Ret a -> Q a (out_st (m w s tr)).

(** A computation only appends to the trace, the calls it appends are all of
    the kind [ok], and it sleeps [n] seconds at most. *)
Definition emits {S A : Type} (ok : Event -> bool) (n : nat) (m : M S A) : Prop :=
  forall w s tr,
    exists evs, out_tr (m w s tr) = tr ++ evs /\
                forallb ok evs = true /\
                elapsed evs <= n.

Definition is_sleep (e : Event) : bool :=
  match e with ESleep _ => true | _ => false end.

Definition is_poll (e : Event) : bool :=
  match e with EPoll _ => true | _ => false end.

Definition is_signal (e : Event) : bool :=
  match e with ETerminate _ | EKill _ => true | _ => false end.

(** A new process or a new thread. *)
Definition spawns (e : Event) : bool :=
  match e with EPopen _ | EThreadStart => true | _ => false end.

(** The calls of [stop]: on the child, or a sleep. *)
Definition stop_call (e : Event) : bool := touches_process e || is_sleep e.

(** The calls of [start]: a spawn or a sleep. *)
Definition start_call (e : Event) : bool := spawns e || is_sleep e.

(** The calls of [restart]. *)
Definition restart_call (e : Event) : bool := stop_call e || start_call e.

(** The calls of [backup_world]: anything but a spawn, a poll or a signal. *)
Definition backup_call (e : Event) : bool :=
  negb (spawns e || is_poll e || is_signal e).

(** The [zipf.write] calls of [backup_world] for one entry of [os.walk]. *)
Definition archive_entry (w : World) (entry : string * list string)
  : list Event :=
  map (fun file =>
         EZipWrite (path_join (fst entry) file)
                   (fs_relpath w (path_join (fst entry) file)))
      (snd entry).

Definition nonblank (line : string) : Prop := truthy line = true.

(** [poll] raises. *)
Definition failing_poll_world : World :=
  a_world (inr 1) (inr tt) (fun _ => inl OSError) (inr tt) idle.

(** There is no ["world"] directory. *)
Definition no_world_dir_world : World :=
  {| os_popen := fun _ _ => inr 1;
     os_thread_start := fun _ => inr tt;
     os_write := fun _ _ _ => inr tt;
     os_flush := fun _ _ => inr tt;
     os_poll := fun _ _ => inr None;
     os_terminate := fun _ _ => inr tt;
     os_kill := fun _ _ => inr tt;
     os_reader := idle;
     fs_exists := fun _ _ => false;
     fs_makedirs := fun _ _ => inr tt;
     fs_chdir := fun _ _ => inr tt;
     fs_open := fun _ _ => inr tt;
     fs_walk := fun _ _ => [];
     fs_relpath := fun p => p;
     clock_strftime := fun _ => "20240101_120000";
     zip_open := fun _ _ => inr tt;
     zip_write := fun _ _ _ => inr tt;
     zip_close := fun _ => inr tt |}.

(** * Properties *)

(** ** The bounded buffers *)
Section Ring.
Context {A : Type}.

Lemma last_lines_length (n : nat) (l : list A) :
  length (last_lines n l) = Nat.min n (length l).
Proof. unfold last_lines. rewrite length_skipn. lia. Qed.

Lemma last_lines_short (n : nat) (l : list A) :
  length l <= n -> last_lines n l = l.
Proof.
  intros H. unfold last_lines.
  replace (length l - n) with 0 by lia. reflexivity.
Qed.

(** Keeping the last [n] elements early does not change what the last [n]
    elements are after more have arrived. *)
Lemma last_lines_app (n : nat) (l m : list A) :
  last_lines n (last_lines n l ++ m) = last_lines n (l ++ m).
Proof.
  destruct (le_gt_dec (length l) n) as [Hle | Hgt].
  - now rewrite (last_lines_short n l Hle).
  - unfold last_lines.
    rewrite !length_app, length_skipn.
    set (d := length l - n).
    replace (length l - d + length m - n) with (length m) by lia.
    replace (length l + length m - n) with (length m + d) by lia.
    rewrite <- skipn_skipn. f_equal.
    rewrite skipn_app.
    replace (d - length l) with 0 by lia. reflexivity.
Qed.

(** When more than [n] elements arrive, only they matter. *)
Lemma last_lines_overflow (n : nat) (l m : list A) :
  n <= length m -> last_lines n (l ++ m) = skipn (length m - n) m.
Proof.
  intros H. unfold last_lines.
  rewrite length_app, skipn_app.
  rewrite (skipn_all2 l) by lia.
  simpl. f_equal. lia.
Qed.
End Ring.

Lemma append_line_last (cap : nat) (log : list string) (x : string) :
  length log <= cap -> append_line cap log x = last_lines cap (log ++ [x]).
Proof.
  intros H. unfold append_line, last_lines.
  rewrite length_app. simpl length.
  destruct (Nat.ltb_spec cap (length log + 1)) as [Hlt | Hge].
  - replace (length log + 1 - cap) with 1 by lia.
    destruct (log ++ [x]); reflexivity.
  - replace (length log + 1 - cap) with 0 by lia. reflexivity.
Qed.

Lemma fold_append_line (cap : nat) (lines init : list string) :
  length init <= cap ->
  fold_left (append_line cap) lines init = last_lines cap (init ++ lines).
Proof.
  revert init. induction lines as [| x lines IH]; intros init H; simpl.
  - rewrite app_nil_r. symmetry. now apply last_lines_short.
  - rewrite append_line_last by assumption.
    rewrite IH.
    + rewrite last_lines_app, <- app_assoc. reflexivity.
    + rewrite last_lines_length. lia.
Qed.

Lemma buffer_limit_pos : 0 < buffer_limit.
Proof. unfold buffer_limit. lia. Qed.

Lemma buffer_push_last (buf : list string) (x : string) :
  length buf <= buffer_limit ->
  buffer_push buf x = last_lines buffer_limit (buf ++ [x]).
Proof.
  intros H. unfold buffer_push, last_lines.
  rewrite length_app. simpl length.
  pose proof buffer_limit_pos as Hpos.
  destruct (Nat.leb_spec buffer_limit (length buf)) as [Hge | Hlt].
  - replace (length buf + 1 - buffer_limit) with 1 by lia.
    destruct buf as [| b buf]; [simpl in Hge; lia | reflexivity].
  - replace (length buf + 1 - buffer_limit) with 0 by lia. reflexivity.
Qed.

Lemma fold_buffer_push (lines init : list string) :
  length init <= buffer_limit ->
  fold_left buffer_push lines init = last_lines buffer_limit (init ++ lines).
Proof.
  revert init. induction lines as [| x lines IH]; intros init H; simpl.
  - rewrite app_nil_r. symmetry. now apply last_lines_short.
  - rewrite buffer_push_last by assumption.
    rewrite IH.
    + rewrite last_lines_app, <- app_assoc. reflexivity.
    + rewrite last_lines_length. lia.
Qed.

Lemma capture_turn_bounded (o : ReaderObs) (s : ServerManager.MinecraftServer) :
  length (ServerManager.console_log s) <= ServerManager.max_console_lines s ->
  length (ServerManager.console_log (fst (ServerManager.capture_turn o s)))
  <= ServerManager.max_console_lines (fst (ServerManager.capture_turn o s)).
Proof.
  intros H. unfold ServerManager.capture_turn.
  destruct (ServerManager.is_running s && is_some (ServerManager.process s));
    [| exact H].
  destruct (ro_poll o) as [e | [c |]]; try exact H.
  destruct (ro_line o) as [e | line]; try exact H.
  destruct (truthy line); try exact H.
  simpl. rewrite append_line_last by exact H.
  rewrite last_lines_length. lia.
Qed.

Lemma reader_turn_bounded (o : ReaderObs) (sy : ServerManager.Sys) :
  log_bounded sy -> log_bounded (ServerManager.reader_turn o sy).
Proof.
  unfold log_bounded, ServerManager.reader_turn. intros H.
  destruct (ServerManager.readers sy); [exact H |].
  simpl. now apply capture_turn_bounded.
Qed.

Lemma interleave_invariant {S : Type} (bg : ReaderObs -> S -> S) (P : S -> Prop) :
  (forall o s, P s -> P (bg o s)) ->
  forall obs s, P s -> P (interleave bg obs s).
Proof.
  intros Hbg obs. unfold interleave.
  induction obs as [| o obs IH]; intros s Hs; simpl; auto.
Qed.

Lemma read_turn_bounded (o : ReaderObs) (g : AdminPanel.Globals) :
  length (AdminPanel.server_output_buffer g) <= buffer_limit ->
  length (AdminPanel.server_output_buffer (AdminPanel.reader_turn o g))
  <= buffer_limit.
Proof.
  intros H. unfold AdminPanel.reader_turn, AdminPanel.read_turn.
  destruct (AdminPanel.readers g); [exact H |].
  destruct (ro_line o) as [e | line]; try exact H.
  destruct (truthy line); try exact H.
  destruct (truthy (strip line)); try exact H.
  simpl. rewrite buffer_push_last by exact H.
  rewrite last_lines_length. lia.
Qed.

(** C2. The console log of [MinecraftServer] (capacity [max_console_lines],
    1000 for every constructed object) and the output buffer of the admin
    panel (capacity 100) never exceed their capacity: starting within the
    capacity, after any number of appends the length is at most the capacity
    and the content is the last [capacity] lines of everything appended, in
    the order of arrival; once more lines than the capacity have been
    appended the content is exactly the last [capacity] of them.  The reader
    threads, which perform the appends, keep the bound whatever they read. *)
Theorem output_ring_bounded_fifo :
  forall (s : ServerManager.MinecraftServer) (buf : list string)
         (lines : list string),
    length (ServerManager.console_log s) <= ServerManager.max_console_lines s ->
    length buf <= 100 ->
    let cap := ServerManager.max_console_lines s in
    let log := fold_left (append_line cap) lines (ServerManager.console_log s) in
    let buf' := fold_left buffer_push lines buf in
    (length log <= cap /\
     log = last_lines cap (ServerManager.console_log s ++ lines) /\
     (cap < length lines ->
      log = skipn (length lines - cap) lines /\ length log = cap)) /\
    (length buf' <= 100 /\
     buf' = last_lines 100 (buf ++ lines) /\
     (100 < length lines ->
      buf' = skipn (length lines - 100) lines /\ length buf' = 100)) /\
    (forall j m p a b, ServerManager.max_console_lines
                         (ServerManager.init j m p a b) = 1000 /\
                       ServerManager.console_log
                         (ServerManager.init j m p a b) = []) /\
    (forall obs n,
        log_bounded (interleave ServerManager.reader_turn obs
                                (ServerManager.mkSys s n))) /\
    (forall obs g,
        AdminPanel.server_output_buffer g = buf ->
        length (AdminPanel.server_output_buffer
                  (interleave AdminPanel.reader_turn obs g)) <= 100).
Proof.
  intros s buf lines Hs Hb cap log buf'.
  change 100 with buffer_limit in *.
  assert (Elog : log = last_lines cap (ServerManager.console_log s ++ lines))
    by (apply fold_append_line; exact Hs).
  assert (Ebuf : buf' = last_lines buffer_limit (buf ++ lines))
    by (apply fold_buffer_push; exact Hb).
  repeat split.
  - rewrite Elog, last_lines_length. lia.
  - exact Elog.
  - rewrite Elog. apply last_lines_overflow. lia.
  - rewrite Elog, last_lines_length, length_app. lia.
  - rewrite Ebuf, last_lines_length. lia.
  - exact Ebuf.
  - rewrite Ebuf. apply last_lines_overflow. lia.
  - rewrite Ebuf, last_lines_length, length_app. lia.
  - intros obs n.
    apply (interleave_invariant ServerManager.reader_turn log_bounded).
    + intros o sy. apply reader_turn_bounded.
    + exact Hs.
  - intros obs g Hg.
    apply (interleave_invariant AdminPanel.reader_turn
             (fun g => length (AdminPanel.server_output_buffer g) <= buffer_limit)).
    + intros o g0. apply read_turn_bounded.
    + rewrite Hg. exact Hb.
Qed.

(** ** Unfolding the embedding *)
Ltac py_unfold :=
  cbv beta iota zeta delta
      [ServerManager.start ServerManager.stop ServerManager.send_command
       ServerManager.is_server_running ServerManager.restart
       ServerManager.backup_world
       ServerManager.get_self ServerManager.set_self ServerManager.the_process
       ServerManager.logger_info ServerManager.logger_warning
       ServerManager.logger_error ServerManager.subprocess_Popen
       ServerManager.stdin_write ServerManager.stdin_flush ServerManager.poll
       ServerManager.terminate ServerManager.kill ServerManager.time_sleep
       ServerManager.path_exists ServerManager.makedirs ServerManager.clock
       ServerManager.thread_start
       AdminPanel.start_server AdminPanel.send_command
       AdminPanel.is_server_running AdminPanel.the_process
       AdminPanel.console_print AdminPanel.poll AdminPanel.stdin_write
       AdminPanel.stdin_flush AdminPanel.os_chdir
       bind ret raise get modify try_except call
       out_res out_st out_tr].

(** ** Idempotent start *)

(** C1. [start()] on a [MinecraftServer] whose [is_running] is set returns
    [True] at once: no call is made (so no second [Popen], no new thread) and
    the object, with its process, output thread and console log, is as
    before.  [start_server()] of the admin panel, when its process is found
    alive, returns [True] having made that one [poll] and nothing else; the
    globals are changed by the reader thread's turns only. *)
Theorem start_when_running_is_noop :
  forall (w : World) (sy : ServerManager.Sys) (g : AdminPanel.Globals)
         (tr : list Event) (p : Popen),
    ServerManager.is_running (ServerManager.self sy) = true ->
    AdminPanel.server_process g = Some p ->
    os_poll w (length tr) p = inr None ->
    ServerManager.start w sy tr = mkOut (Ret true) sy tr /\
    AdminPanel.start_server w g tr
    = mkOut (Ret true)
            (interleave AdminPanel.reader_turn (os_reader w (length tr)) g)
            (tr ++ [EPoll p]) /\
    existsb is_spawn (out_tr (AdminPanel.start_server w g tr)) = existsb is_spawn tr.
Proof.
  intros w sy g tr p Hrun Hproc Hpoll.
  assert (E : AdminPanel.start_server w g tr
              = mkOut (Ret true)
                  (interleave AdminPanel.reader_turn (os_reader w (length tr)) g)
                  (tr ++ [EPoll p])).
  { py_unfold. rewrite Hproc. cbv beta iota. rewrite Hpoll. reflexivity. }
  split; [| split].
  - py_unfold. rewrite Hrun. reflexivity.
  - exact E.
  - rewrite E. cbv [out_tr]. rewrite existsb_app. simpl. apply orb_false_r.
Qed.

(** ** What the reader thread can and cannot change *)
Section ReaderFrame.
Import ServerManager.

Lemma capture_turn_process o s : process (fst (capture_turn o s)) = process s.
Proof.
  unfold capture_turn.
  destruct (is_running s && is_some (process s)); [| reflexivity].
  destruct (ro_poll o) as [e | [c |]]; try reflexivity.
  destruct (ro_line o) as [e | line]; try reflexivity.
  destruct (truthy line); reflexivity.
Qed.

Lemma capture_turn_thread o s :
  output_thread (fst (capture_turn o s)) = output_thread s.
Proof.
  unfold capture_turn.
  destruct (is_running s && is_some (process s)); [| reflexivity].
  destruct (ro_poll o) as [e | [c |]]; try reflexivity.
  destruct (ro_line o) as [e | line]; try reflexivity.
  destruct (truthy line); reflexivity.
Qed.

(** The reader never sets [is_running]. *)
Lemma capture_turn_running o s :
  is_running (fst (capture_turn o s)) = true -> is_running s = true.
Proof.
  unfold capture_turn.
  destruct (is_running s) eqn:R; [reflexivity |].
  simpl. discriminate.
Qed.

(** A reader that leaves its loop has cleared [is_running]. *)
Lemma capture_turn_exit o s :
  snd (capture_turn o s) = false -> is_running (fst (capture_turn o s)) = false.
Proof.
  unfold capture_turn.
  destruct (is_running s && is_some (process s)); [| reflexivity].
  destruct (ro_poll o) as [e | [c |]]; try reflexivity.
  destruct (ro_line o) as [e | line]; try reflexivity.
  destruct (truthy line); discriminate.
Qed.

Lemma reader_turn_process o sy :
  process (self (reader_turn o sy)) = process (self sy).
Proof.
  unfold reader_turn. destruct (readers sy); [reflexivity |].
  apply capture_turn_process.
Qed.

Lemma reader_turn_thread o sy :
  output_thread (self (reader_turn o sy)) = output_thread (self sy).
Proof.
  unfold reader_turn. destruct (readers sy); [reflexivity |].
  apply capture_turn_thread.
Qed.

Lemma reader_turn_running o sy :
  is_running (self (reader_turn o sy)) = true -> is_running (self sy) = true.
Proof.
  unfold reader_turn. destruct (readers sy); [trivial |].
  apply capture_turn_running.
Qed.

Lemma reader_turn_readers o sy : readers (reader_turn o sy) <= readers sy.
Proof.
  unfold reader_turn. destruct (readers sy) as [| n] eqn:E; [lia |].
  simpl. destruct (snd (capture_turn o (self sy))); lia.
Qed.

Lemma interleave_process obs sy :
  process (self (interleave reader_turn obs sy)) = process (self sy).
Proof.
  apply (interleave_invariant reader_turn
           (fun s => process (self s) = process (self sy))); [| reflexivity].
  intros o s H. now rewrite reader_turn_process.
Qed.

Lemma interleave_thread obs sy :
  output_thread (self (interleave reader_turn obs sy)) = output_thread (self sy).
Proof.
  apply (interleave_invariant reader_turn
           (fun s => output_thread (self s) = output_thread (self sy)));
    [| reflexivity].
  intros o s H. now rewrite reader_turn_thread.
Qed.

Lemma interleave_running obs sy :
  is_running (self (interleave reader_turn obs sy)) = true ->
  is_running (self sy) = true.
Proof.
  revert sy. unfold interleave.
  induction obs as [| o obs IH]; intros sy H; simpl in *; [exact H |].
  apply (reader_turn_running o). now apply IH.
Qed.

Lemma interleave_not_running obs sy :
  is_running (self sy) = false ->
  is_running (self (interleave reader_turn obs sy)) = false.
Proof.
  intros H.
  destruct (is_running (self (interleave reader_turn obs sy))) eqn:E;
    [| reflexivity].
  apply interleave_running in E. congruence.
Qed.

Lemma interleave_readers obs sy :
  readers (interleave reader_turn obs sy) <= readers sy.
Proof.
  revert sy. unfold interleave.
  induction obs as [| o obs IH]; intros sy; simpl; [lia |].
  specialize (IH (reader_turn o sy)).
  pose proof (reader_turn_readers o sy). lia.
Qed.
End ReaderFrame.

(** ** Operations on a server that is not running *)

(** C4. [stop()] on a [MinecraftServer] that is not running -- [is_running]
    is clear (never started, stopped before, or cleared by the reader thread
    at the end of the child's output) or there is no process -- returns [True]
    at once: the trace is unchanged, so no command is written, no signal is
    sent and the process is not polled, and the object is unchanged. *)
Theorem stop_when_not_running_is_noop :
  forall (w : World) (sy : ServerManager.Sys) (tr : list Event) (timeout : Z),
    ServerManager.is_running (ServerManager.self sy) = false \/
    ServerManager.process (ServerManager.self sy) = None ->
    ServerManager.stop timeout w sy tr = mkOut (Ret true) sy tr.
Proof.
  intros w sy tr timeout [H | H]; py_unfold; rewrite H.
  - reflexivity.
  - rewrite orb_true_r. reflexivity.
Qed.

(** C5. [send_command] on a [MinecraftServer] that is not running returns
    [False] without any call: nothing is written or flushed.  [send_command]
    of the admin panel returns [False] when there is no process (no call at
    all) and when the process is found dead (one [poll], no write, no
    flush). *)
Theorem send_command_when_not_running :
  forall (w : World) (sy : ServerManager.Sys) (g : AdminPanel.Globals)
         (tr : list Event) (command : string),
    ServerManager.is_running (ServerManager.self sy) = false \/
    ServerManager.process (ServerManager.self sy) = None ->
    ServerManager.send_command command w sy tr = mkOut (Ret false) sy tr /\
    (AdminPanel.server_process g = None ->
     AdminPanel.send_command command w g tr = mkOut (Ret false) g tr) /\
    (forall p code,
        AdminPanel.server_process g = Some p ->
        os_poll w (length tr) p = inr (Some code) ->
        let o := AdminPanel.send_command command w g tr in
        out_res o = Ret false /\
        out_tr o = tr ++ [EPoll p] /\
        existsb is_stream_io (out_tr o) = existsb is_stream_io tr).
Proof.
  intros w sy g tr command H. split; [| split].
  - destruct H as [H | H]; py_unfold; rewrite H.
    + reflexivity.
    + rewrite orb_true_r. reflexivity.
  - intros Hg. py_unfold. rewrite Hg. reflexivity.
  - intros p code Hg Hpoll o. subst o.
    py_unfold. rewrite Hg. cbv beta iota. rewrite Hpoll. cbn.
    repeat split. rewrite existsb_app. simpl. apply orb_false_r.
Qed.

(** ** Failures *)

(** C7. When [Popen] raises in [start()], the call returns [False] with
    [is_running] clear; no process handle has been stored (the [process]
    attribute is the one from before the call, [None] for a supervisor that
    never started a child), no reader thread has been created, and the
    [Popen] attempt is the only call made. *)
Theorem start_spawn_failure :
  forall (w : World) (sy : ServerManager.Sys) (tr : list Event) (e : PyExc),
    ServerManager.is_running (ServerManager.self sy) = false ->
    os_popen w (length tr) (ServerManager.start_command (ServerManager.self sy))
    = inl e ->
    let o := ServerManager.start w sy tr in
    out_res o = Ret false /\
    ServerManager.is_running (ServerManager.self (out_st o)) = false /\
    ServerManager.process (ServerManager.self (out_st o))
    = ServerManager.process (ServerManager.self sy) /\
    ServerManager.output_thread (ServerManager.self (out_st o))
    = ServerManager.output_thread (ServerManager.self sy) /\
    ServerManager.readers (out_st o) <= ServerManager.readers sy /\
    out_tr o = tr ++ [EPopen (ServerManager.start_command (ServerManager.self sy))].
Proof.
  intros w sy tr e Hrun Hpopen o. subst o.
  py_unfold. rewrite Hrun. cbv beta iota. rewrite Hpopen. cbn.
  repeat split.
  - apply interleave_process.
  - apply interleave_thread.
  - apply interleave_readers.
Qed.

(** C9, as the code has it.  When the write on the child's input stream
    raises, [send_command] catches the exception and returns [False]; the
    write is the only call it has made (the process is not polled) and it
    changes no attribute: the state after the call is the state before it
    with the reader thread's turns applied.  In particular [is_running] is
    still set when the reader thread had no turn. *)
Theorem send_command_write_failure :
  forall (w : World) (sy : ServerManager.Sys) (tr : list Event)
         (command : string) (p : Popen) (e : PyExc),
    ServerManager.is_running (ServerManager.self sy) = true ->
    ServerManager.process (ServerManager.self sy) = Some p ->
    os_write w (length tr) p (command ++ newline)%string = inl e ->
    let o := ServerManager.send_command command w sy tr in
    o = mkOut (Ret false)
              (interleave ServerManager.reader_turn (os_reader w (length tr)) sy)
              (tr ++ [EWrite p (command ++ newline)%string]) /\
    (os_reader w (length tr) = [] ->
     ServerManager.is_running (ServerManager.self (out_st o)) = true).
Proof.
  intros w sy tr command p e Hrun Hproc Hwrite o.
  assert (E : o = mkOut (Ret false)
                    (interleave ServerManager.reader_turn
                                (os_reader w (length tr)) sy)
                    (tr ++ [EWrite p (command ++ newline)%string])).
  { subst o. py_unfold. rewrite Hrun, Hproc. cbn. rewrite ?Hproc. cbn.
    rewrite Hwrite. reflexivity. }
  split; [exact E |].
  intros Hidle. rewrite E, Hidle. exact Hrun.
Qed.

(** C9 as stated fails: in a world where the write raises [BrokenPipeError]
    while the child is still in the process table, [send_command] returns
    [False], does not poll, and leaves [is_running] set. *)
Lemma send_command_broken_pipe_still_running :
  let o := ServerManager.send_command "list" broken_pipe_world running_server [] in
  out_res o = Ret false /\
  out_tr o = [EWrite 1 ("list" ++ newline)%string] /\
  ServerManager.is_running (ServerManager.self (out_st o)) = true /\
  ~ (ServerManager.is_running (ServerManager.self (out_st o)) = false).
Proof.
  vm_compute. repeat split. discriminate.
Qed.

(** ** Running a computation step by step *)
Section Stepping.
Context {S : Type} (bg : ReaderObs -> S -> S).

Lemma bind_out {A B} (m : M S A) (k : A -> M S B) w s tr a s' tr' :
  m w s tr = mkOut (Ret a) s' tr' -> bind m k w s tr = k a w s' tr'.
Proof. intros H. unfold bind. rewrite H. reflexivity. Qed.

Lemma bind_raised {A B} (m : M S A) (k : A -> M S B) w s tr e s' tr' :
  m w s tr = mkOut (Raise e) s' tr' ->
  bind m k w s tr = mkOut (Raise e) s' tr'.
Proof. intros H. unfold bind. rewrite H. reflexivity. Qed.

Lemma call_ok {A} ev (answer : World -> nat -> PyExc + A) w s tr a :
  answer w (length tr) = inr a ->
  call bg ev answer w s tr
  = mkOut (Ret a) (interleave bg (os_reader w (length tr)) s) (tr ++ [ev]).
Proof. intros H. unfold call. rewrite H. reflexivity. Qed.

Lemma call_failed {A} ev (answer : World -> nat -> PyExc + A) w s tr e :
  answer w (length tr) = inl e ->
  call bg ev answer w s tr
  = mkOut (Raise e) (interleave bg (os_reader w (length tr)) s) (tr ++ [ev]).
Proof. intros H. unfold call. rewrite H. reflexivity. Qed.

Lemma try_except_out {A} (m : M S A) h w s tr a s' tr' :
  m w s tr = mkOut (Ret a) s' tr' ->
  try_except m h w s tr = mkOut (Ret a) s' tr'.
Proof. intros H. unfold try_except. rewrite H. reflexivity. Qed.

Lemma try_except_raised {A} (m : M S A) h w s tr e s' tr' :
  m w s tr = mkOut (Raise e) s' tr' ->
  try_except m h w s tr = h e w s' tr'.
Proof. intros H. unfold try_except. rewrite H. reflexivity. Qed.

(** A handler that returns makes the whole [try] return. *)
Lemma try_except_returns {A} (m : M S A) h :
  (forall e w s tr, exists a, out_res (h e w s tr) = Ret a) ->
  forall w s tr, exists a, out_res (try_except m h w s tr) = Ret a.
Proof.
  intros Hh w s tr. unfold try_except.
  destruct (out_res (m w s tr)) as [a | e] eqn:E.
  - exists a. exact E.
  - apply Hh.
Qed.
End Stepping.

Lemma elapsed_app (a b : list Event) : elapsed (a ++ b) = elapsed a + elapsed b.
Proof.
  induction a as [| e a IH]; simpl; [reflexivity |].
  destruct e; simpl; rewrite ?IH; lia.
Qed.

(** ** Graceful, then forced, shutdown *)



(** One step of a sequence whose first computation has a known outcome. *)
Ltac step H := rewrite (bind_out _ _ _ _ _ _ _ _ H).

Section Stop.
Import ServerManager.

Lemma the_process_out w sy tr p :
  process (self sy) = Some p -> the_process w sy tr = mkOut (Ret p) sy tr.
Proof.
  intros H. unfold the_process.
  rewrite (bind_out get_self _ w sy tr (self sy) sy tr eq_refl).
  rewrite H. reflexivity.
Qed.


Lemma send_command_idle command w sy tr :
  is_running (self sy) = false ->
  send_command command w sy tr = mkOut (Ret false) sy tr.
Proof.
  intros H. unfold send_command.
  rewrite (bind_out get_self _ w sy tr (self sy) sy tr eq_refl).
  rewrite H. reflexivity.
Qed.



Lemma time_sleep_out secs w sy tr :
  time_sleep secs w sy tr
  = mkOut (Ret tt) (interleave reader_turn (os_reader w (length tr)) sy)
          (tr ++ [ESleep secs]).
Proof. reflexivity. Qed.

Lemma poll_out p w sy tr c :
  os_poll w (length tr) p = inr c ->
  poll p w sy tr
  = mkOut (Ret c) (interleave reader_turn (os_reader w (length tr)) sy)
          (tr ++ [EPoll p]).
Proof. intros H. unfold poll. apply call_ok. exact H. Qed.



End Stop.

Lemma bind_ret {S A B} (a : A) (k : A -> M S B) w s tr :
  bind (ret a) k w s tr = k a w s tr.
Proof. reflexivity. Qed.




(** ** Readiness *)

Section Start.
Import ServerManager.

Lemma existsb_tl {A} (f : A -> bool) (l : list A) :
  existsb f l = false -> existsb f (tl l) = false.
Proof.
  destruct l as [| a l]; simpl; [trivial |].
  intros H. now apply orb_false_elim in H.
Qed.

Lemma existsb_append_line f cap log x :
  existsb f log = false -> f x = false ->
  existsb f (append_line cap log x) = false.
Proof.
  intros Hlog Hx. unfold append_line.
  assert (H : existsb f (log ++ [x]) = false)
    by (rewrite existsb_app, Hlog; simpl; now rewrite Hx).
  destruct (cap <? length (log ++ [x])); [now apply existsb_tl | exact H].
Qed.

Lemma reader_turn_quiet o sy :
  quiet o ->
  (no_ready_line sy -> no_ready_line (reader_turn o sy)) /\
  (live sy -> live (reader_turn o sy)).
Proof.
  intros (Hpoll & line & Hline & Hready).
  unfold no_ready_line, live, reader_turn, capture_turn.
  destruct (readers sy) as [| n]; [tauto |].
  rewrite Hpoll, Hline.
  split.
  - intros H.
    destruct (is_running (self sy) && is_some (process (self sy)));
      [| exact H].
    destruct (truthy line); [| exact H].
    simpl. now apply existsb_append_line.
  - intros [Hrun Hproc]. rewrite Hrun, Hproc. simpl.
    destruct (truthy line); simpl; auto.
Qed.

Lemma interleave_quiet obs sy :
  (forall o, In o obs -> quiet o) ->
  (no_ready_line sy -> no_ready_line (interleave reader_turn obs sy)) /\
  (live sy -> live (interleave reader_turn obs sy)).
Proof.
  revert sy. unfold interleave.
  induction obs as [| o obs IH]; intros sy Hq; simpl; [tauto |].
  assert (Ho : quiet o) by (apply Hq; now left).
  destruct (reader_turn_quiet o sy Ho) as [H1 H2].
  destruct (IH (reader_turn o sy)) as [H3 H4];
    [intros o' Hin; apply Hq; now right |].
  split; auto.
Qed.

Lemma set_self_out f w sy tr :
  set_self f w sy tr = mkOut (Ret tt) (on_self f sy) tr.
Proof. reflexivity. Qed.

Lemma clock_out w (sy : Sys) tr : clock w sy tr = mkOut (Ret (length tr)) sy tr.
Proof. reflexivity. Qed.

Lemma thread_start_out w sy tr :
  os_thread_start w (length tr) = inr tt ->
  thread_start w sy tr
  = mkOut (Ret tt)
          (interleave reader_turn (os_reader w (length tr)) (add_reader sy))
          (tr ++ [EThreadStart]).
Proof. intros H. unfold thread_start. rewrite H. reflexivity. Qed.

Lemma subprocess_Popen_out command w sy tr p :
  os_popen w (length tr) command = inr p ->
  subprocess_Popen command w sy tr
  = mkOut (Ret p) (interleave reader_turn (os_reader w (length tr)) sy)
          (tr ++ [EPopen command]).
Proof. intros H. unfold subprocess_Popen. apply call_ok. exact H. Qed.

(** The readiness loop, while the child stays alive and silent about
    readiness: it sleeps [n] times and is left without [server_ready]. *)
Lemma start_wait_quiet n : forall w sy tr,
  quiet_world w -> live sy -> no_ready_line sy ->
  exists sy',
    start_wait n w sy tr
    = mkOut (Ret (inr false)) sy' (tr ++ repeat (ESleep 1) n) /\
    live sy' /\ no_ready_line sy' /\
    process (self sy') = process (self sy).
Proof.
  induction n as [| n IH]; intros w sy tr Hw Hlive Hlog.
  - exists sy. simpl. rewrite app_nil_r. auto.
  - set (sy1 := interleave reader_turn (os_reader w (length tr)) sy).
    destruct (interleave_quiet (os_reader w (length tr)) sy (Hw (length tr)))
      as [Hlog1 Hlive1].
    destruct (IH w sy1 (tr ++ [ESleep 1]) Hw (Hlive1 Hlive) (Hlog1 Hlog))
      as (sy' & E & Hl & Hn & Hp).
    exists sy'. split; [| split; [exact Hl | split; [exact Hn |]]].
    + simpl start_wait.
      rewrite (bind_out get_self _ w sy tr (self sy) sy tr eq_refl).
      destruct Hlive as [Hrun _]. rewrite Hrun. cbn [negb].
      unfold no_ready_line in Hlog. rewrite Hlog.
      step (time_sleep_out 1 w sy tr). fold sy1.
      rewrite E, <- app_assoc. reflexivity.
    + rewrite Hp. unfold sy1. apply interleave_process.
Qed.
End Start.

(** C6. When [Popen] and the start of the reader thread succeed, and
    throughout the call the child stays alive and no line containing both
    ["Done"] and ["For help, type"] is in the console log or is read, then
    [start()] sleeps through its whole budget of 60 seconds and returns
    [True], with [is_running] set and the new process stored. *)
Theorem start_readiness_timeout_is_soft :
  forall (w : World) (sy : ServerManager.Sys) (tr : list Event) (p : Popen),
    ServerManager.is_running (ServerManager.self sy) = false ->
    os_popen w (length tr) (ServerManager.start_command (ServerManager.self sy))
    = inr p ->
    os_thread_start w (S (length tr)) = inr tt ->
    quiet_world w ->
    no_ready_line sy ->
    let o := ServerManager.start w sy tr in
    out_res o = Ret true /\
    out_tr o = tr ++ [EPopen (ServerManager.start_command (ServerManager.self sy));
                      EThreadStart] ++ repeat (ESleep 1) 60 /\
    elapsed (repeat (ESleep 1) 60) = 60 /\
    ServerManager.is_running (ServerManager.self (out_st o)) = true /\
    ServerManager.process (ServerManager.self (out_st o)) = Some p /\
    no_ready_line (out_st o).
Proof.
  intros w sy tr p Hrun Hpopen Hthread Hw Hlog o.
  set (command := ServerManager.start_command (ServerManager.self sy)) in *.
  set (sy1 := interleave ServerManager.reader_turn (os_reader w (length tr)) sy).
  set (tr1 := tr ++ [EPopen command]).
  set (sy2 := ServerManager.on_self (ServerManager.set_output_thread (Some (length tr1)))
                (ServerManager.on_self (ServerManager.set_is_running true)
                   (ServerManager.on_self (ServerManager.set_process (Some p)) sy1))).
  set (sy3 := interleave ServerManager.reader_turn (os_reader w (length tr1))
                (ServerManager.add_reader sy2)).
  set (tr2 := tr1 ++ [EThreadStart]).
  assert (Hlog1 : no_ready_line sy1)
    by (apply (interleave_quiet _ sy (Hw (length tr))); exact Hlog).
  assert (Hlog3 : no_ready_line sy3)
    by (apply (interleave_quiet _ _ (Hw (length tr1))); exact Hlog1).
  assert (Hlive3 : live sy3)
    by (apply (interleave_quiet _ _ (Hw (length tr1))); split; reflexivity).
  assert (Hp3 : ServerManager.process (ServerManager.self sy3) = Some p)
    by (unfold sy3; rewrite interleave_process; reflexivity).
  assert (Hthread' : os_thread_start w (length tr1) = inr tt).
  { unfold tr1. rewrite length_app. simpl. rewrite Nat.add_1_r. exact Hthread. }
  destruct (start_wait_quiet ServerManager.max_wait_time w sy3 tr2 Hw Hlive3 Hlog3)
    as (sy' & Ewait & Hlive' & Hlog' & Hp').
  assert (E : o = mkOut (Ret true) sy'
                        (tr2 ++ repeat (ESleep 1) ServerManager.max_wait_time)).
  { subst o. unfold ServerManager.start.
    rewrite (bind_out ServerManager.get_self _ w sy tr
                      (ServerManager.self sy) sy tr eq_refl).
    rewrite Hrun.
    apply try_except_out.
    rewrite (bind_out ServerManager.get_self _ w sy tr
                      (ServerManager.self sy) sy tr eq_refl).
    step (subprocess_Popen_out command w sy tr p Hpopen).
    step (set_self_out (ServerManager.set_process (Some p)) w sy1 tr1).
    step (set_self_out (ServerManager.set_is_running true) w
                       (ServerManager.on_self (ServerManager.set_process (Some p)) sy1)
                       tr1).
    step (clock_out w (ServerManager.on_self (ServerManager.set_is_running true)
                         (ServerManager.on_self (ServerManager.set_process (Some p)) sy1))
                    tr1).
    step (set_self_out (ServerManager.set_output_thread (Some (length tr1))) w
                       (ServerManager.on_self (ServerManager.set_is_running true)
                          (ServerManager.on_self (ServerManager.set_process (Some p)) sy1))
                       tr1).
    step (thread_start_out w sy2 tr1 Hthread').
    unfold ServerManager.logger_info at 1. rewrite bind_ret.
    step Ewait. reflexivity. }
  rewrite E. cbn [out_res out_st out_tr].
  split; [reflexivity |]. split.
  { unfold tr2, tr1. rewrite <- !app_assoc. reflexivity. }
  split; [reflexivity |]. split; [apply Hlive' |].
  split; [now rewrite Hp' | exact Hlog'].
Qed.

(** ** Exceptions that reach the caller *)
Section Returns.
Import ServerManager.

Lemma start_returns w sy tr : exists b, out_res (start w sy tr) = Ret b.
Proof.
  unfold start.
  rewrite (bind_out get_self _ w sy tr (self sy) sy tr eq_refl).
  destruct (is_running (self sy)).
  - exists true. reflexivity.
  - apply try_except_returns. intros e w' s' tr'. exists false. reflexivity.
Qed.

Lemma stop_returns timeout w sy tr :
  exists b, out_res (stop timeout w sy tr) = Ret b.
Proof.
  unfold stop.
  rewrite (bind_out get_self _ w sy tr (self sy) sy tr eq_refl).
  destruct (negb (is_running (self sy)) || negb (is_some (process (self sy)))).
  - exists true. reflexivity.
  - apply try_except_returns. intros e w' s' tr'. exists false. reflexivity.
Qed.

Lemma send_command_returns command w sy tr :
  exists b, out_res (send_command command w sy tr) = Ret b.
Proof.
  unfold send_command.
  rewrite (bind_out get_self _ w sy tr (self sy) sy tr eq_refl).
  destruct (negb (is_running (self sy)) || negb (is_some (process (self sy)))).
  - exists false. reflexivity.
  - apply try_except_returns. intros e w' s' tr'. exists false. reflexivity.
Qed.

(** [backup_world] returns when ["world"] is missing and when
    [os.makedirs] succeeds: everything after that is inside its [try]. *)
Lemma backup_world_returns backup_dir w sy tr :
  fs_exists w (length tr) "world" = false \/
  fs_makedirs w (Datatypes.S (length tr)) backup_dir = inr tt ->
  exists r, out_res (backup_world backup_dir w sy tr) = Ret r.
Proof.
  intros H. unfold backup_world.
  assert (Hex : path_exists "world" w sy tr
                = mkOut (Ret (fs_exists w (length tr) "world"))
                        (interleave reader_turn (os_reader w (length tr)) sy)
                        (tr ++ [EExists "world"])) by reflexivity.
  step Hex.
  destruct (fs_exists w (length tr) "world") eqn:Hfound.
  - destruct H as [H | H]; [discriminate |].
    cbn [negb].
    assert (Hmk : makedirs backup_dir w
                    (interleave reader_turn (os_reader w (length tr)) sy)
                    (tr ++ [EExists "world"])
                  = mkOut (Ret tt)
                      (interleave reader_turn
                         (os_reader w (length (tr ++ [EExists "world"])))
                         (interleave reader_turn (os_reader w (length tr)) sy))
                      ((tr ++ [EExists "world"]) ++ [EMakedirs backup_dir])).
    { unfold makedirs. apply call_ok.
      rewrite length_app. simpl. rewrite Nat.add_1_r. exact H. }
    step Hmk.
    apply try_except_returns. intros e w' s' tr'. exists None. reflexivity.
  - exists None. reflexivity.
Qed.
End Returns.

(** C10, on the code.  [start], [stop] and [send_command] return an ordinary
    value in every world, and so does [backup_world] when ["world"] is missing
    or [os.makedirs] succeeds; but [os.makedirs] is called before the [try]
    of [backup_world], and in a world where ["backups"] is a regular file its
    [FileExistsError] reaches the caller. *)
Theorem backup_world_makedirs_error_escapes :
  (forall w sy tr, exists b, out_res (ServerManager.start w sy tr) = Ret b) /\
  (forall timeout w sy tr,
      exists b, out_res (ServerManager.stop timeout w sy tr) = Ret b) /\
  (forall command w sy tr,
      exists b, out_res (ServerManager.send_command command w sy tr) = Ret b) /\
  (forall backup_dir w sy tr,
      fs_makedirs w (S (length tr)) backup_dir = inr tt ->
      exists r, out_res (ServerManager.backup_world backup_dir w sy tr) = Ret r) /\
  ServerManager.backup_world "backups" backups_is_a_file_world
                             ServerManager.fresh []
  = mkOut (Raise FileExistsError) ServerManager.fresh
          [EExists "world"; EMakedirs "backups"].
Proof.
  split; [exact start_returns |].
  split; [exact stop_returns |].
  split; [exact send_command_returns |].
  split.
  - intros backup_dir w sy tr H. apply backup_world_returns. now right.
  - reflexivity.
Qed.

(** ** The process handle and the running flag *)
Section Keeping.
Context {S : Type} (bg : ReaderObs -> S -> S) (P : S -> Prop).

Lemma keeps_ret {A} (a : A) : keeps P (ret a).
Proof. intros w s tr H. exact H. Qed.

Lemma keeps_raise {A} e : keeps P (@raise S A e).
Proof. intros w s tr H. exact H. Qed.

Lemma keeps_get : keeps P get.
Proof. intros w s tr H. exact H. Qed.

Lemma keeps_modify f : (forall s, P s -> P (f s)) -> keeps P (modify f).
Proof. intros Hf w s tr H. apply Hf. exact H. Qed.

Lemma keeps_bind {A B} (m : M S A) (k : A -> M S B) :
  keeps P m -> (forall a, keeps P (k a)) -> keeps P (bind m k).
Proof.
  intros Hm Hk w s tr H. unfold bind.
  specialize (Hm w s tr H).
  destruct (out_res (m w s tr)) as [a | e]; [now apply Hk | exact Hm].
Qed.

Lemma keeps_try_except {A} (m : M S A) h :
  keeps P m -> (forall e, keeps P (h e)) -> keeps P (try_except m h).
Proof.
  intros Hm Hh w s tr H. unfold try_except.
  specialize (Hm w s tr H).
  destruct (out_res (m w s tr)) as [a | e]; [exact Hm | now apply Hh].
Qed.

Lemma keeps_call {A} ev (answer : World -> nat -> PyExc + A) :
  (forall o s, P s -> P (bg o s)) -> keeps P (call bg ev answer).
Proof.
  intros Hbg w s tr H. unfold call. cbn [out_st].
  now apply interleave_invariant.
Qed.
End Keeping.

Ltac unwrap :=
  unfold ServerManager.get_self, ServerManager.set_self,
    ServerManager.the_process, ServerManager.logger_info,
    ServerManager.logger_warning, ServerManager.logger_error,
    ServerManager.subprocess_Popen, ServerManager.stdin_write,
    ServerManager.stdin_flush, ServerManager.poll, ServerManager.terminate,
    ServerManager.kill, ServerManager.time_sleep, ServerManager.path_exists,
    ServerManager.makedirs, ServerManager.strftime, ServerManager.os_walk,
    ServerManager.ZipFile_open, ServerManager.ZipFile_write,
    ServerManager.ZipFile_close.

Ltac keeping :=
  repeat (intros; unwrap;
          match goal with
          | |- keeps _ (bind _ _) => apply keeps_bind
          | |- keeps _ (try_except _ _) => apply keeps_try_except
          | |- keeps _ (ret _) => apply keeps_ret
          | |- keeps _ (raise _) => apply keeps_raise
          | |- keeps _ get => apply keeps_get
          | |- keeps _ (call _ _ _) => apply keeps_call
          | |- keeps _ (modify _) => apply keeps_modify
          | |- keeps _ (if ?c then _ else _) => destruct c
          | |- keeps _ (match ?c with _ => _ end) => destruct c
          end).

Section Handle.
Import ServerManager.

Lemma reader_keeps_handle_while_running o sy :
  handle_while_running sy -> handle_while_running (reader_turn o sy).
Proof.
  intros H Hrun. rewrite reader_turn_process. apply H.
  now apply (reader_turn_running o).
Qed.

Lemma reader_keeps_handle o sy : has_handle sy -> has_handle (reader_turn o sy).
Proof. unfold has_handle. now rewrite reader_turn_process. Qed.

Lemma keeps_clock P : keeps P clock.
Proof. intros w s tr H. exact H. Qed.

Lemma keeps_world P : keeps P world.
Proof. intros w s tr H. exact H. Qed.

Lemma keeps_thread_start (P : Sys -> Prop) :
  (forall o s, P s -> P (reader_turn o s)) ->
  (forall s, P s -> P (add_reader s)) ->
  keeps P thread_start.
Proof.
  intros Hr Ha w s tr H. unfold thread_start.
  destruct (os_thread_start w (length tr)); cbn [out_st];
    apply interleave_invariant; auto.
Qed.

Lemma keeps_for_each (P : Sys -> Prop) {A} (l : list A) body :
  (forall x, keeps P (body x)) -> keeps P (for_each l body).
Proof.
  intros Hb. induction l as [| x l IH]; simpl.
  - apply keeps_ret.
  - apply keeps_bind; auto.
Qed.

Lemma keeps_with_ZipFile (P : Sys -> Prop) {A} file (body : Py A) :
  (forall o s, P s -> P (reader_turn o s)) ->
  keeps P body -> keeps P (with_ZipFile file body).
Proof.
  intros Hr Hb. unfold with_ZipFile.
  apply keeps_bind; [unwrap; now apply keeps_call |].
  intros _ w s tr H.
  assert (Hc : P (out_st (ZipFile_close w (out_st (body w s tr))
                                        (out_tr (body w s tr)))))
    by (apply (keeps_call reader_turn P _ _ Hr); now apply Hb).
  destruct (out_res (ZipFile_close w (out_st (body w s tr))
                                   (out_tr (body w s tr)))); exact Hc.
Qed.

(** Operations that only clear [is_running] keep every property that the
    reader thread and the clearing keep. *)
Section Clearing.
Variable P : Sys -> Prop.
Hypothesis Hreader : forall o s, P s -> P (reader_turn o s).
Hypothesis Hclear : forall s, P s -> P (on_self (set_is_running false) s).

Lemma keeps_send_command command : keeps P (send_command command).
Proof. unfold send_command. unwrap. keeping; auto. Qed.

Lemma keeps_stop_wait n : keeps P (stop_wait n).
Proof.
  induction n as [| n IH]; simpl; [apply keeps_ret |].
  unwrap. keeping; auto.
Qed.

Lemma keeps_stop timeout : keeps P (stop timeout).
Proof.
  unfold stop.
  apply keeps_bind; [unwrap; keeping |]. intros s.
  destruct (negb (is_running s) || negb (is_some (process s)));
    [unwrap; keeping |].
  apply keeps_try_except; [| unwrap; keeping].
  apply keeps_bind; [unwrap; keeping |]. intros _.
  apply keeps_bind; [apply keeps_send_command |]. intros _.
  apply keeps_bind; [unwrap; keeping; auto |]. intros _.
  apply keeps_bind; [unwrap; keeping |]. intros _.
  apply keeps_bind; [apply keeps_send_command |]. intros _.
  apply keeps_bind; [apply keeps_stop_wait |]. intros r.
  unwrap. keeping; auto.
Qed.

Lemma keeps_is_server_running : keeps P is_server_running.
Proof. unfold is_server_running. unwrap. keeping; auto. Qed.

Lemma keeps_backup_world backup_dir : keeps P (backup_world backup_dir).
Proof.
  unfold backup_world.
  apply keeps_bind; [unwrap; keeping; auto |]. intros found.
  destruct (negb found); [unwrap; keeping |].
  apply keeps_bind; [unwrap; keeping; auto |]. intros _.
  apply keeps_try_except; [| unwrap; keeping].
  apply keeps_bind; [unwrap; keeping; auto |]. intros timestamp.
  apply keeps_bind; [unwrap; keeping |]. intros s.
  apply keeps_bind.
  { destruct (is_running s); [| apply keeps_ret].
    apply keeps_bind; [unwrap; keeping |]. intros _.
    apply keeps_bind; [apply keeps_send_command |]. intros _.
    unwrap. keeping; auto. }
  intros _.
  apply keeps_bind; [| unwrap; keeping].
  apply keeps_with_ZipFile; [exact Hreader |].
  apply keeps_bind; [apply keeps_world |]. intros w.
  apply keeps_bind; [unwrap; keeping; auto |]. intros tree.
  apply keeps_for_each. intros entry.
  apply keeps_for_each. intros file.
  unwrap. keeping; auto.
Qed.
End Clearing.

Lemma keeps_start_wait n : keeps has_handle (start_wait n).
Proof.
  induction n as [| n IH]; simpl; [apply keeps_ret |].
  unwrap. keeping; auto using reader_keeps_handle.
Qed.

(** [start] stores the handle before it sets [is_running], and clears
    [is_running] when anything in its [try] raises. *)
Lemma keeps_start : keeps handle_while_running start.
Proof.
  intros w sy tr H. unfold start.
  rewrite (bind_out get_self _ w sy tr (self sy) sy tr eq_refl).
  destruct (is_running (self sy)) eqn:Hrun; [exact H |].
  unfold try_except.
  rewrite (bind_out get_self _ w sy tr (self sy) sy tr eq_refl).
  destruct (os_popen w (length tr) (start_command (self sy))) as [e | p] eqn:Hp.
  - assert (Hfail : subprocess_Popen (start_command (self sy)) w sy tr
                    = mkOut (Raise e)
                        (interleave reader_turn (os_reader w (length tr)) sy)
                        (tr ++ [EPopen (start_command (self sy))]))
      by (unfold subprocess_Popen; apply call_failed; exact Hp).
    rewrite (bind_raised _ _ _ _ _ _ _ _ Hfail).
    cbn. intros Hr. discriminate.
  - step (subprocess_Popen_out _ w sy tr p Hp).
    step (set_self_out (set_process (Some p)) w
            (interleave reader_turn (os_reader w (length tr)) sy)
            (tr ++ [EPopen (start_command (self sy))])).
    match goal with
    | |- handle_while_running
           (out_st match out_res (?m ?w ?s ?t) with _ => _ end) =>
        assert (K : has_handle (out_st (m w s t)));
        [| destruct (out_res (m w s t));
           [intros _; exact K | cbn; intros Hr; discriminate]]
    end.
    match goal with
    | |- has_handle (out_st (?m ?w ?s ?t)) =>
        assert (K : keeps has_handle m); [| apply K; reflexivity]
    end.
    apply keeps_bind; [unwrap; keeping; auto |]. intros _.
    apply keeps_bind; [apply keeps_clock |]. intros th.
    apply keeps_bind; [unwrap; keeping; auto |]. intros _.
    apply keeps_bind;
      [apply keeps_thread_start; auto using reader_keeps_handle |].
    intros _.
    apply keeps_bind; [unwrap; keeping |]. intros _.
    apply keeps_bind; [apply keeps_start_wait |]. intros r.
    unwrap. keeping.
Qed.

Lemma clear_keeps_handle_while_running sy :
  handle_while_running sy ->
  handle_while_running (on_self (set_is_running false) sy).
Proof. intros _ Hr. discriminate. Qed.

Lemma keeps_restart timeout : keeps handle_while_running (restart timeout).
Proof.
  unfold restart.
  apply keeps_bind; [unwrap; keeping |]. intros _.
  apply keeps_bind.
  { apply keeps_stop;
      auto using reader_keeps_handle_while_running,
                 clear_keeps_handle_while_running. }
  intros ok. destruct (negb ok); [unwrap; keeping |].
  apply keeps_bind;
    [unwrap; keeping; auto using reader_keeps_handle_while_running |].
  intros _. apply keeps_start.
Qed.

Lemma run_op_keeps_handle op w c :
  handle_while_running (fst c) -> handle_while_running (fst (run_op op w c)).
Proof.
  intros H. destruct op; cbn [run_op fst].
  - now apply keeps_start.
  - apply keeps_stop;
      auto using reader_keeps_handle_while_running,
                 clear_keeps_handle_while_running.
  - apply keeps_send_command;
      auto using reader_keeps_handle_while_running.
  - apply keeps_is_server_running;
      auto using reader_keeps_handle_while_running,
                 clear_keeps_handle_while_running.
  - now apply keeps_restart.
  - apply keeps_backup_world;
      auto using reader_keeps_handle_while_running.
Qed.

Lemma run_ops_keeps_handle ops w : forall c,
  handle_while_running (fst c) ->
  handle_while_running (fst (run_ops ops w c)).
Proof.
  unfold run_ops. induction ops as [| op ops IH]; intros c H; simpl.
  - exact H.
  - apply IH. now apply run_op_keeps_handle.
Qed.
End Handle.


(** * The theorems at concrete inputs *)

(** [start()] twice: the second call, on the running supervisor, is a no-op. *)
Lemma start_when_running_is_noop_witness :
  ServerManager.is_running (ServerManager.self running_server) = true /\
  AdminPanel.server_process running_panel = Some 1 /\
  os_poll stubborn_world 0 1 = inr None /\
  ServerManager.start stubborn_world running_server []
  = mkOut (Ret true) running_server [] /\
  AdminPanel.start_server stubborn_world running_panel []
  = mkOut (Ret true) running_panel [EPoll 1].
Proof.
  split; [reflexivity |]. split; [reflexivity |]. split; [reflexivity |].
  destruct (start_when_running_is_noop stubborn_world running_server
              running_panel [] 1 eq_refl eq_refl eq_refl) as (H1 & H2 & _).
  split; [exact H1 | exact H2].
Defined.

(** 102 lines into the empty buffers: the admin panel keeps the last 100. *)
Lemma output_ring_bounded_fifo_witness :
  length (ServerManager.console_log ServerManager.default)
  <= ServerManager.max_console_lines ServerManager.default /\
  length (@nil string) <= 100 /\
  fold_left buffer_push (repeat "a" 100 ++ ["b"; "c"]) []
  = skipn 2 (repeat "a" 100 ++ ["b"; "c"]) /\
  length (fold_left (append_line 1000) (repeat "a" 100 ++ ["b"; "c"]) []) <= 1000.
Proof.
  assert (H1 : length (ServerManager.console_log ServerManager.default)
               <= ServerManager.max_console_lines ServerManager.default)
    by (simpl; lia).
  assert (H2 : length (@nil string) <= 100) by (simpl; lia).
  split; [exact H1 |]. split; [exact H2 |].
  destruct (output_ring_bounded_fifo ServerManager.default []
              (repeat "a" 100 ++ ["b"; "c"]) H1 H2)
    as ((Hlen & _) & (_ & _ & Hover) & _).
  split; [| exact Hlen].
  apply Hover. vm_compute. lia.
Defined.



Lemma stop_when_not_running_is_noop_witness :
  (ServerManager.is_running (ServerManager.self ServerManager.fresh) = false \/
   ServerManager.process (ServerManager.self ServerManager.fresh) = None) /\
  ServerManager.stop 30 stubborn_world ServerManager.fresh []
  = mkOut (Ret true) ServerManager.fresh [].
Proof.
  split; [left; reflexivity |].
  apply (stop_when_not_running_is_noop stubborn_world ServerManager.fresh [] 30).
  left. reflexivity.
Defined.

Lemma send_command_when_not_running_witness :
  (ServerManager.is_running (ServerManager.self ServerManager.fresh) = false \/
   ServerManager.process (ServerManager.self ServerManager.fresh) = None) /\
  ServerManager.send_command "list" stubborn_world ServerManager.fresh []
  = mkOut (Ret false) ServerManager.fresh [].
Proof.
  split; [left; reflexivity |].
  apply (send_command_when_not_running stubborn_world ServerManager.fresh
           AdminPanel.initial [] "list").
  left. reflexivity.
Defined.

Lemma chatty_world_is_quiet : quiet_world chatty_world.
Proof.
  intros t o [<- | []]. split; [reflexivity |].
  eexists. split; reflexivity.
Defined.

(** A child that logs, but never the readiness line: [start()] returns
    [True] after its 60 sleeps. *)
Lemma start_readiness_timeout_is_soft_witness :
  ServerManager.is_running (ServerManager.self ServerManager.fresh) = false /\
  os_popen chatty_world 0
           (ServerManager.start_command (ServerManager.self ServerManager.fresh))
  = inr 1 /\
  os_thread_start chatty_world 1 = inr tt /\
  quiet_world chatty_world /\
  no_ready_line ServerManager.fresh /\
  out_res (ServerManager.start chatty_world ServerManager.fresh []) = Ret true.
Proof.
  split; [reflexivity |]. split; [reflexivity |]. split; [reflexivity |].
  split; [exact chatty_world_is_quiet |]. split; [reflexivity |].
  apply (start_readiness_timeout_is_soft chatty_world ServerManager.fresh [] 1
           eq_refl eq_refl eq_refl chatty_world_is_quiet eq_refl).
Defined.

Lemma start_spawn_failure_witness :
  ServerManager.is_running (ServerManager.self ServerManager.fresh) = false /\
  os_popen no_java_world 0
           (ServerManager.start_command (ServerManager.self ServerManager.fresh))
  = inl FileNotFoundError /\
  out_res (ServerManager.start no_java_world ServerManager.fresh []) = Ret false /\
  ServerManager.is_running
    (ServerManager.self
       (out_st (ServerManager.start no_java_world ServerManager.fresh [])))
  = false.
Proof.
  split; [reflexivity |]. split; [reflexivity |].
  destruct (start_spawn_failure no_java_world ServerManager.fresh []
              FileNotFoundError eq_refl eq_refl) as (H1 & H2 & _).
  split; [exact H1 | exact H2].
Defined.

Lemma send_command_write_failure_witness :
  ServerManager.is_running (ServerManager.self running_server) = true /\
  ServerManager.process (ServerManager.self running_server) = Some 1 /\
  os_write broken_pipe_world 0 1 ("list" ++ newline)%string
  = inl BrokenPipeError /\
  ServerManager.send_command "list" broken_pipe_world running_server []
  = mkOut (Ret false) running_server [EWrite 1 ("list" ++ newline)%string].
Proof.
  split; [reflexivity |]. split; [reflexivity |]. split; [reflexivity |].
  apply (send_command_write_failure broken_pipe_world running_server []
           "list" 1 BrokenPipeError eq_refl eq_refl eq_refl).
Defined.

(** * Further properties of the code *)

(** ** Reading the console log *)

Lemma skipn_suffix {A} (k : nat) (l : list A) :
  exists dropped, l = dropped ++ skipn k l.
Proof. exists (firstn k l). symmetry. apply firstn_skipn. Qed.

Lemma last_lines_last_lines {A} (n cap : nat) (l : list A) :
  n <= cap -> last_lines n (last_lines cap l) = last_lines n l.
Proof.
  intros H. unfold last_lines.
  rewrite length_skipn, skipn_skipn. f_equal. lia.
Qed.

(** X1. [get_console_output(lines)] returns a suffix of the console log: for
    [lines > 0] the last [lines] entries (all of them when there are fewer);
    for [lines = 0] the whole log, since [-0] is [0]; for [lines < 0] the log
    without its first [-lines] entries. *)
Theorem get_console_output_suffix :
  forall (lines : Z) (s : ServerManager.MinecraftServer),
    let log := ServerManager.console_log s in
    let out := ServerManager.get_console_output lines s in
    (exists dropped, log = dropped ++ out) /\
    ((0 < lines)%Z ->
     out = last_lines (Z.to_nat lines) log /\
     length out = Nat.min (Z.to_nat lines) (length log)) /\
    (lines = 0%Z -> out = log) /\
    ((lines < 0)%Z -> length out = length log - Z.to_nat (- lines)).
Proof.
  intros lines s log out. subst out log.
  unfold ServerManager.get_console_output.
  split; [| split; [| split]].
  - destruct (0 <? lines)%Z; apply skipn_suffix.
  - intros H. apply Z.ltb_lt in H. rewrite H.
    split; [reflexivity | apply last_lines_length].
  - intros ->. reflexivity.
  - intros H.
    destruct (Z.ltb_spec 0 lines) as [H0 | H0]; [lia |].
    apply length_skipn.
Qed.

(** X2. Asking for the last [n] lines, [n] within the capacity, after any
    number of appends gives the last [n] lines of everything that was ever
    in the log, evictions notwithstanding. *)
Theorem get_console_output_after_appends :
  forall (s : ServerManager.MinecraftServer) (lines : list string) (n : Z),
    length (ServerManager.console_log s) <= ServerManager.max_console_lines s ->
    (0 < n)%Z ->
    Z.to_nat n <= ServerManager.max_console_lines s ->
    ServerManager.get_console_output n
      (ServerManager.set_console_log
         (fold_left (append_line (ServerManager.max_console_lines s)) lines
                    (ServerManager.console_log s)) s)
    = last_lines (Z.to_nat n) (ServerManager.console_log s ++ lines).
Proof.
  intros s lines n Hlog Hpos Hcap.
  unfold ServerManager.get_console_output.
  apply Z.ltb_lt in Hpos. rewrite Hpos.
  cbn [ServerManager.console_log ServerManager.set_console_log].
  rewrite fold_append_line by exact Hlog.
  now apply last_lines_last_lines.
Qed.

(** ** The reader threads *)

Lemma capture_turn_capacity o s :
  ServerManager.max_console_lines (fst (ServerManager.capture_turn o s))
  = ServerManager.max_console_lines s.
Proof.
  unfold ServerManager.capture_turn.
  destruct (ServerManager.is_running s && is_some (ServerManager.process s));
    [| reflexivity].
  destruct (ro_poll o) as [e | [c |]]; try reflexivity.
  destruct (ro_line o) as [e | line]; try reflexivity.
  destruct (truthy line); reflexivity.
Qed.

Lemma reader_turn_capacity o sy :
  ServerManager.max_console_lines (ServerManager.self (ServerManager.reader_turn o sy))
  = ServerManager.max_console_lines (ServerManager.self sy).
Proof.
  unfold ServerManager.reader_turn.
  destruct (ServerManager.readers sy); [reflexivity |].
  apply capture_turn_capacity.
Qed.

Lemma reader_turn_ended o sy :
  ServerManager.readers (ServerManager.reader_turn o sy) < ServerManager.readers sy ->
  ServerManager.is_running (ServerManager.self (ServerManager.reader_turn o sy))
  = false.
Proof.
  unfold ServerManager.reader_turn.
  destruct (ServerManager.readers sy) as [| n] eqn:E; [rewrite E; lia |].
  cbn [ServerManager.readers ServerManager.self].
  destruct (snd (ServerManager.capture_turn o (ServerManager.self sy))) eqn:Hs;
    [lia |].
  intros _. now apply capture_turn_exit.
Qed.

(** X3. Whatever the reader thread of a [MinecraftServer] reads, and however
    many turns it takes, it changes neither the process handle, nor the thread
    attribute, nor the capacity; it never sets [is_running] and never adds a
    reader; and once a reader has left its loop [is_running] is clear. *)
Theorem reader_thread_only_clears_running :
  forall (obs : list ReaderObs) (sy : ServerManager.Sys),
    let sy' := interleave ServerManager.reader_turn obs sy in
    ServerManager.process (ServerManager.self sy')
    = ServerManager.process (ServerManager.self sy) /\
    ServerManager.output_thread (ServerManager.self sy')
    = ServerManager.output_thread (ServerManager.self sy) /\
    ServerManager.max_console_lines (ServerManager.self sy')
    = ServerManager.max_console_lines (ServerManager.self sy) /\
    (ServerManager.is_running (ServerManager.self sy') = true ->
     ServerManager.is_running (ServerManager.self sy) = true) /\
    ServerManager.readers sy' <= ServerManager.readers sy /\
    (ServerManager.readers sy' < ServerManager.readers sy ->
     ServerManager.is_running (ServerManager.self sy') = false).
Proof.
  intros obs sy sy'. subst sy'.
  split; [apply interleave_process |].
  split; [apply interleave_thread |].
  split.
  { apply (interleave_invariant ServerManager.reader_turn
             (fun s => ServerManager.max_console_lines (ServerManager.self s)
                       = ServerManager.max_console_lines (ServerManager.self sy)));
      [| reflexivity].
    intros o s H. now rewrite reader_turn_capacity. }
  split; [apply interleave_running |].
  split; [apply interleave_readers |].
  revert sy. unfold interleave.
  induction obs as [| o obs IH]; intros sy H; simpl in *; [lia |].
  pose proof (interleave_readers obs (ServerManager.reader_turn o sy)) as Hle.
  unfold interleave in Hle.
  destruct (Nat.lt_ge_cases
              (ServerManager.readers
                 (fold_left (fun s o0 => ServerManager.reader_turn o0 s) obs
                            (ServerManager.reader_turn o sy)))
              (ServerManager.readers (ServerManager.reader_turn o sy)))
    as [Hlt | Hge].
  - now apply IH.
  - apply (interleave_not_running obs).
    apply reader_turn_ended. lia.
Qed.

Lemma Forall_tl {A} (P : A -> Prop) (l : list A) : Forall P l -> Forall P (tl l).
Proof. intros H. destruct H; simpl; [constructor | assumption]. Qed.

Lemma buffer_push_nonblank buf line :
  Forall nonblank buf -> nonblank line -> Forall nonblank (buffer_push buf line).
Proof.
  intros Hb Hl. unfold buffer_push.
  apply Forall_app. split; [| now constructor].
  destruct (buffer_limit <=? length buf); [now apply Forall_tl | exact Hb].
Qed.

Lemma admin_reader_turn_nonblank o g :
  Forall nonblank (AdminPanel.server_output_buffer g) ->
  Forall nonblank (AdminPanel.server_output_buffer (AdminPanel.reader_turn o g)).
Proof.
  intros H. unfold AdminPanel.reader_turn, AdminPanel.read_turn.
  destruct (AdminPanel.readers g); [exact H |].
  destruct (ro_line o) as [e | line]; try exact H.
  destruct (truthy line); try exact H.
  destruct (truthy (strip line)) eqn:Hs; try exact H.
  simpl. now apply buffer_push_nonblank.
Qed.

(** X4. The output buffer of the admin panel never holds an empty line:
    [read_server_output] drops the lines that are blank once stripped. *)
Theorem output_buffer_has_no_blank_line :
  forall (obs : list ReaderObs) (g : AdminPanel.Globals),
    Forall nonblank (AdminPanel.server_output_buffer g) ->
    Forall nonblank
           (AdminPanel.server_output_buffer
              (interleave AdminPanel.reader_turn obs g)).
Proof.
  intros obs g H.
  apply (interleave_invariant AdminPanel.reader_turn
           (fun g => Forall nonblank (AdminPanel.server_output_buffer g)));
    [| exact H].
  intros o g0. apply admin_reader_turn_nonblank.
Qed.

(** X5. When [read_server_output] meets the end of the stream or an
    exception, the thread ends and forgets the process, leaving the buffer as
    it is; from then on [is_server_running] answers [False] without polling
    and [send_command] returns [False] without any call. *)
Theorem reader_end_forgets_process :
  forall (o : ReaderObs) (g : AdminPanel.Globals) (n : nat),
    AdminPanel.readers g = S n ->
    (ro_line o = inr EmptyString \/ exists e, ro_line o = inl e) ->
    let g' := AdminPanel.reader_turn o g in
    AdminPanel.server_process g' = None /\
    AdminPanel.readers g' = n /\
    AdminPanel.server_output_buffer g' = AdminPanel.server_output_buffer g /\
    forall w tr command,
      AdminPanel.is_server_running w g' tr = mkOut (Ret false) g' tr /\
      AdminPanel.send_command command w g' tr = mkOut (Ret false) g' tr.
Proof.
  intros o g n Hn Hend g'.
  assert (E : g' = AdminPanel.set_readers n (AdminPanel.set_server_process None g)).
  { subst g'. unfold AdminPanel.reader_turn, AdminPanel.read_turn. rewrite Hn.
    destruct Hend as [-> | [e ->]]; reflexivity. }
  rewrite E. repeat split.
Qed.

(** ** Liveness check and restart *)

Lemma out_eta {S A} (o : Out S A) : o = mkOut (out_res o) (out_st o) (out_tr o).
Proof. destruct o. reflexivity. Qed.

Lemma stop_idle timeout w sy tr :
  ServerManager.is_running (ServerManager.self sy) = false ->
  ServerManager.stop timeout w sy tr = mkOut (Ret true) sy tr.
Proof.
  intros H. unfold ServerManager.stop.
  rewrite (bind_out ServerManager.get_self _ w sy tr
                    (ServerManager.self sy) sy tr eq_refl).
  rewrite H. reflexivity.
Qed.

Lemma poll_failed p w sy tr e :
  os_poll w (length tr) p = inl e ->
  ServerManager.poll p w sy tr
  = mkOut (Raise e)
          (interleave ServerManager.reader_turn (os_reader w (length tr)) sy)
          (tr ++ [EPoll p]).
Proof. intros H. unfold ServerManager.poll. apply call_failed. exact H. Qed.

(** X6. [is_server_running()] on a supervisor that believes its child is
    running makes exactly one [poll].  If the child has exited it answers
    [False] and clears [is_running], keeping the handle, so that a following
    [send_command] does no I/O and a following [stop] is a no-op; if the
    child is alive it answers [True] and changes nothing itself; and an
    exception of [poll] reaches the caller, the function having no [try]. *)
Theorem is_server_running_corrects_flag :
  forall (w : World) (sy : ServerManager.Sys) (tr : list Event) (p : Popen),
    ServerManager.is_running (ServerManager.self sy) = true ->
    ServerManager.process (ServerManager.self sy) = Some p ->
    let o := ServerManager.is_server_running w sy tr in
    let sy1 := interleave ServerManager.reader_turn (os_reader w (length tr)) sy in
    out_tr o = tr ++ [EPoll p] /\
    (forall code,
        os_poll w (length tr) p = inr (Some code) ->
        out_res o = Ret false /\
        ServerManager.is_running (ServerManager.self (out_st o)) = false /\
        ServerManager.process (ServerManager.self (out_st o)) = Some p /\
        forall command timeout,
          ServerManager.send_command command w (out_st o) (out_tr o)
          = mkOut (Ret false) (out_st o) (out_tr o) /\
          ServerManager.stop timeout w (out_st o) (out_tr o)
          = mkOut (Ret true) (out_st o) (out_tr o)) /\
    (os_poll w (length tr) p = inr None ->
     o = mkOut (Ret true) sy1 (tr ++ [EPoll p])) /\
    (forall e, os_poll w (length tr) p = inl e ->
               o = mkOut (Raise e) sy1 (tr ++ [EPoll p])).
Proof.
  intros w sy tr p Hrun Hproc o sy1.
  assert (Hp1 : ServerManager.process (ServerManager.self sy1) = Some p)
    by (unfold sy1; now rewrite interleave_process).
  assert (Hstart : o = (c <- ServerManager.poll p ;;
                        match c with
                        | Some _ =>
                            ServerManager.set_self (ServerManager.set_is_running false) ;;
                            ret false
                        | None => ret true
                        end) w sy tr).
  { subst o. unfold ServerManager.is_server_running.
    rewrite (bind_out ServerManager.get_self _ w sy tr
                      (ServerManager.self sy) sy tr eq_refl).
    rewrite Hrun, Hproc. cbn [negb is_some orb].
    step (the_process_out w sy tr p Hproc). reflexivity. }
  assert (Hsome : forall code, os_poll w (length tr) p = inr (Some code) ->
            o = mkOut (Ret false)
                      (ServerManager.on_self (ServerManager.set_is_running false) sy1)
                      (tr ++ [EPoll p])).
  { intros code Hc. rewrite Hstart. step (poll_out p w sy tr _ Hc). reflexivity. }
  assert (Hnone : os_poll w (length tr) p = inr None ->
            o = mkOut (Ret true) sy1 (tr ++ [EPoll p])).
  { intros Hc. rewrite Hstart. step (poll_out p w sy tr _ Hc). reflexivity. }
  assert (Hexc : forall e, os_poll w (length tr) p = inl e ->
            o = mkOut (Raise e) sy1 (tr ++ [EPoll p])).
  { intros e Hc. rewrite Hstart.
    apply bind_raised. now apply poll_failed. }
  split.
  { destruct (os_poll w (length tr) p) as [e | [code |]] eqn:Hc.
    - now rewrite (Hexc e).
    - now rewrite (Hsome code).
    - now rewrite Hnone. }
  split; [| split; [exact Hnone | exact Hexc]].
  intros code Hc. rewrite (Hsome code Hc). cbn [out_res out_st out_tr].
  split; [reflexivity |]. split; [reflexivity |]. split; [exact Hp1 |].
  intros command timeout. split.
  - now apply send_command_idle.
  - now apply stop_idle.
Qed.

(** X7. [restart] never lets an exception reach its caller: it has no [try]
    of its own, and what it calls returns in every world. *)
Theorem restart_returns :
  forall (timeout : Z) (w : World) (sy : ServerManager.Sys) (tr : list Event),
    exists b, out_res (ServerManager.restart timeout w sy tr) = Ret b.
Proof.
  intros timeout w sy tr. unfold ServerManager.restart.
  unfold ServerManager.logger_info. rewrite bind_ret.
  destruct (stop_returns timeout w sy tr) as [ok Hok].
  pose proof (out_eta (ServerManager.stop timeout w sy tr)) as E.
  rewrite Hok in E. step E.
  destruct ok; cbn [negb].
  - step (time_sleep_out 5 w (out_st (ServerManager.stop timeout w sy tr))
                         (out_tr (ServerManager.stop timeout w sy tr))).
    apply start_returns.
  - exists false. reflexivity.
Qed.

(** X8. When [stop] fails, [restart] returns [False] right away: it does
    not sleep and does not start anything, so its outcome is the outcome of
    the [stop]. *)
Theorem restart_gives_up_when_stop_fails :
  forall (timeout : Z) (w : World) (sy : ServerManager.Sys) (tr : list Event),
    out_res (ServerManager.stop timeout w sy tr) = Ret false ->
    ServerManager.restart timeout w sy tr = ServerManager.stop timeout w sy tr.
Proof.
  intros timeout w sy tr H. unfold ServerManager.restart.
  unfold ServerManager.logger_info. rewrite bind_ret.
  pose proof (out_eta (ServerManager.stop timeout w sy tr)) as E.
  rewrite H in E. step E. cbn [negb].
  unfold ServerManager.logger_error. rewrite bind_ret.
  symmetry. exact E.
Qed.

(** X9. [restart] of a supervisor that is not running is a sleep of 5
    followed by [start]: the [stop] in it makes no call. *)
Theorem restart_when_not_running :
  forall (timeout : Z) (w : World) (sy : ServerManager.Sys) (tr : list Event),
    ServerManager.is_running (ServerManager.self sy) = false ->
    ServerManager.restart timeout w sy tr
    = ServerManager.start w
        (interleave ServerManager.reader_turn (os_reader w (length tr)) sy)
        (tr ++ [ESleep 5]).
Proof.
  intros timeout w sy tr H. unfold ServerManager.restart.
  unfold ServerManager.logger_info. rewrite bind_ret.
  step (stop_idle timeout w sy tr H). cbn [negb].
  step (time_sleep_out 5 w sy tr). reflexivity.
Qed.

(** ** What a returned value says about the state *)
Section Hoare.
Context {S : Type} (bg : ReaderObs -> S -> S).

Lemma hoare_ret {A} (P : S -> Prop) (a : A) (Q : A -> S -> Prop) :
  (forall s, P s -> Q a s) -> hoare P (ret a) Q.
Proof.
  intros H w s tr HP b Hb. cbn in *. inversion Hb; subst. now apply H.
Qed.

Lemma hoare_bind {A B} (P : S -> Prop) (R : A -> S -> Prop) (Q : B -> S -> Prop)
      (m : M S A) (k : A -> M S B) :
  hoare P m R -> (forall a, hoare (R a) (k a) Q) -> hoare P (bind m k) Q.
Proof.
  intros Hm Hk w s tr HP b Hb. unfold bind in *.
  destruct (out_res (m w s tr)) as [a | e] eqn:E.
  - apply (Hk a w (out_st (m w s tr)) (out_tr (m w s tr))); [| exact Hb].
    now apply (Hm w s tr HP a).
  - discriminate.
Qed.

Lemma hoare_try_except {A} (P : S -> Prop) (Q : A -> S -> Prop) (m : M S A) h :
  hoare P m Q -> (forall e, hoare (fun _ => True) (h e) Q) ->
  hoare P (try_except m h) Q.
Proof.
  intros Hm Hh w s tr HP b Hb. unfold try_except in *.
  destruct (out_res (m w s tr)) as [a | e] eqn:E.
  - rewrite E in Hb. inversion Hb; subst. now apply (Hm w s tr HP).
  - now apply (Hh e w (out_st (m w s tr)) (out_tr (m w s tr)) I).
Qed.

Lemma hoare_modify (P : S -> Prop) (Q : unit -> S -> Prop) f :
  (forall s, P s -> Q tt (f s)) -> hoare P (modify f) Q.
Proof.
  intros H w s tr HP b Hb. destruct b. cbn. now apply H.
Qed.

Lemma hoare_any {A} (P : S -> Prop) (m : M S A) : hoare P m (fun _ _ => True).
Proof. intros w s tr HP b Hb. exact I. Qed.

Lemma hoare_pre {A} (P P' : S -> Prop) (Q : A -> S -> Prop) (m : M S A) :
  (forall s, P s -> P' s) -> hoare P' m Q -> hoare P m Q.
Proof. intros HPP Hm w s tr HP. apply Hm. now apply HPP. Qed.
End Hoare.

(** Whatever [m] does, [k] alone establishes [Q]. *)
Ltac hoare_skip :=
  apply hoare_bind with (R := fun _ _ => True); [apply hoare_any | intros ?].

Section Outcomes.
Import ServerManager.

Lemma hoare_get_self (P : Sys -> Prop) :
  hoare P get_self (fun a sy => a = self sy /\ P sy).
Proof.
  intros w s tr HP a Ha. cbn in *. inversion Ha; subst. auto.
Qed.

(** The waiting loop of [stop] returns from inside only with [True], and
    then it has just cleared [is_running]. *)
Lemma stop_wait_returned n :
  hoare (fun _ => True) (stop_wait n)
        (fun r sy => forall b, r = Some b ->
                               b = true /\ is_running (self sy) = false).
Proof.
  induction n as [| n IH]; simpl.
  - apply hoare_ret. intros s _ b Hb. discriminate.
  - hoare_skip. hoare_skip. destruct a0 as [code |].
    + apply hoare_bind with (R := fun _ sy => is_running (self sy) = false).
      * apply hoare_modify. reflexivity.
      * intros _. unfold logger_info.
        apply hoare_bind with (R := fun _ sy => is_running (self sy) = false).
        { apply hoare_ret. auto. }
        intros _. apply hoare_ret. intros s Hs b Hb.
        inversion Hb; subst. auto.
    + hoare_skip. exact IH.
Qed.

Lemma stop_returned timeout :
  hoare handle_while_running (stop timeout)
        (fun b sy => b = true -> is_running (self sy) = false).
Proof.
  unfold stop.
  apply hoare_bind with (R := fun a sy => a = self sy /\ handle_while_running sy);
    [apply hoare_get_self |].
  intros a.
  destruct (negb (is_running a) || negb (is_some (process a))) eqn:G.
  - unfold logger_warning.
    apply hoare_bind with (R := fun _ sy => a = self sy /\ handle_while_running sy).
    { apply hoare_ret. auto. }
    intros _. apply hoare_ret. intros sy [-> H] _.
    destruct (is_running (self sy)) eqn:Hr; [| reflexivity].
    rewrite (H Hr) in G. discriminate.
  - apply hoare_try_except.
    + hoare_skip. hoare_skip. hoare_skip. hoare_skip. hoare_skip.
      apply hoare_bind
        with (R := fun r sy => forall b, r = Some b ->
                                         b = true /\ is_running (self sy) = false).
      { apply hoare_pre with (P' := fun _ => True); [auto |].
        apply stop_wait_returned. }
      intros [b |].
      * apply hoare_ret. intros sy H _. now apply (H b).
      * hoare_skip. hoare_skip. hoare_skip.
        apply hoare_bind with (R := fun _ sy => is_running (self sy) = false).
        { apply hoare_modify. reflexivity. }
        intros _. unfold logger_info.
        apply hoare_bind with (R := fun _ sy => is_running (self sy) = false).
        { apply hoare_ret. auto. }
        intros _. apply hoare_ret. auto.
    + intros e. unfold logger_error. hoare_skip.
      apply hoare_ret. intros s _ H. discriminate.
Qed.

(** The readiness loop of [start] returns from inside only when it has just
    seen [is_running] clear. *)
Lemma start_wait_returned n :
  hoare (fun _ => True) (start_wait n)
        (fun r sy => forall b, r = inl b -> is_running (self sy) = false).
Proof.
  induction n as [| n IH]; simpl.
  - apply hoare_ret. intros s _ b Hb. discriminate.
  - apply hoare_bind with (R := fun a sy => a = self sy /\ True);
      [apply hoare_get_self |].
    intros a. destruct (is_running a) eqn:Hr; cbn [negb].
    + destruct (existsb server_ready_line (console_log a)).
      * apply hoare_ret. intros s _ b Hb. discriminate.
      * hoare_skip. exact IH.
    + unfold logger_error.
      apply hoare_bind with (R := fun _ sy => a = self sy /\ True).
      { apply hoare_ret. auto. }
      intros _. apply hoare_ret. intros sy [-> _] b _. exact Hr.
Qed.

Lemma start_returned :
  hoare (fun _ => True) start
        (fun b sy => b = false -> is_running (self sy) = false).
Proof.
  unfold start. hoare_skip.
  destruct (is_running a).
  - hoare_skip. apply hoare_ret. intros s _ H. discriminate.
  - apply hoare_try_except.
    + do 8 hoare_skip.
      apply hoare_bind
        with (R := fun r sy => forall b, r = inl b -> is_running (self sy) = false);
        [apply start_wait_returned |].
      intros [b | ready].
      * apply hoare_ret. intros sy H _. now apply (H b).
      * destruct ready; hoare_skip; apply hoare_ret; intros s _ H; discriminate.
    + intros e. unfold logger_error. hoare_skip.
      apply hoare_bind with (R := fun _ sy => is_running (self sy) = false).
      { apply hoare_modify. reflexivity. }
      intros _. apply hoare_ret. auto.
Qed.
End Outcomes.

(** X10. When [stop] returns [True] on a supervisor that holds a handle
    whenever it is marked running, [is_running] is clear afterwards, in every
    world and whatever the reader thread did meanwhile: the next [start]
    will spawn rather than return at its guard. *)
Theorem stop_success_clears_running :
  forall (timeout : Z) (w : World) (sy : ServerManager.Sys) (tr : list Event),
    handle_while_running sy ->
    out_res (ServerManager.stop timeout w sy tr) = Ret true ->
    ServerManager.is_running
      (ServerManager.self (out_st (ServerManager.stop timeout w sy tr))) = false.
Proof.
  intros timeout w sy tr H Hres.
  now apply (stop_returned timeout w sy tr H true Hres).
Qed.

(** X11. When [start] returns [False], [is_running] is clear afterwards, in
    every world: a failed start can be retried. *)
Theorem failed_start_is_not_running :
  forall (w : World) (sy : ServerManager.Sys) (tr : list Event),
    out_res (ServerManager.start w sy tr) = Ret false ->
    ServerManager.is_running
      (ServerManager.self (out_st (ServerManager.start w sy tr))) = false.
Proof.
  intros w sy tr Hres.
  now apply (start_returned w sy tr I false Hres).
Qed.

(** ** The calls an operation can make, and how long it can sleep *)
Section Emitting.
Context {S : Type} (bg : ReaderObs -> S -> S) (ok : Event -> bool).

Lemma emits_ret {A} n (a : A) : emits ok n (@ret S A a).
Proof. intros w s tr. exists []. cbn. rewrite app_nil_r. repeat split. lia. Qed.

Lemma emits_raise {A} n e : emits ok n (@raise S A e).
Proof. intros w s tr. exists []. cbn. rewrite app_nil_r. repeat split. lia. Qed.

Lemma emits_get n : emits ok n (@get S).
Proof. intros w s tr. exists []. cbn. rewrite app_nil_r. repeat split. lia. Qed.

Lemma emits_modify n f : emits ok n (@modify S f).
Proof. intros w s tr. exists []. cbn. rewrite app_nil_r. repeat split. lia. Qed.

Lemma emits_call {A} n ev (answer : World -> nat -> PyExc + A) :
  ok ev = true -> elapsed [ev] <= n -> emits ok n (call bg ev answer).
Proof.
  intros Hok Hn w s tr. exists [ev]. cbn [call out_tr].
  repeat split; [cbn; now rewrite Hok | exact Hn].
Qed.

Lemma emits_bind {A B} a b (m : M S A) (k : A -> M S B) :
  emits ok a m -> (forall x, emits ok b (k x)) -> emits ok (a + b) (bind m k).
Proof.
  intros Hm Hk w s tr. unfold bind.
  destruct (Hm w s tr) as (evs & Etr & Hok & Hel).
  destruct (out_res (m w s tr)) as [x | e].
  - destruct (Hk x w (out_st (m w s tr)) (out_tr (m w s tr)))
      as (evs' & Etr' & Hok' & Hel').
    exists (evs ++ evs'). rewrite Etr', Etr, <- app_assoc.
    split; [reflexivity |]. split.
    + rewrite forallb_app, Hok, Hok'. reflexivity.
    + rewrite elapsed_app. lia.
  - exists evs. cbn [out_tr]. repeat split; [exact Etr | exact Hok | lia].
Qed.

Lemma emits_try_except {A} a b (m : M S A) h :
  emits ok a m -> (forall e, emits ok b (h e)) ->
  emits ok (a + b) (try_except m h).
Proof.
  intros Hm Hh w s tr. unfold try_except.
  destruct (Hm w s tr) as (evs & Etr & Hok & Hel).
  destruct (out_res (m w s tr)) as [x | e].
  - exists evs. repeat split; [exact Etr | exact Hok | lia].
  - destruct (Hh e w (out_st (m w s tr)) (out_tr (m w s tr)))
      as (evs' & Etr' & Hok' & Hel').
    exists (evs ++ evs'). rewrite Etr', Etr, <- app_assoc.
    split; [reflexivity |]. split.
    + rewrite forallb_app, Hok, Hok'. reflexivity.
    + rewrite elapsed_app. lia.
Qed.

Lemma emits_weaken {A} a b (m : M S A) : a <= b -> emits ok a m -> emits ok b m.
Proof.
  intros Hab Hm w s tr. destruct (Hm w s tr) as (evs & Etr & Hok & Hel).
  exists evs. repeat split; [exact Etr | exact Hok | lia].
Qed.

(** A step that does not sleep, then the rest. *)
Lemma emits_then {A B} n (m : M S A) (k : A -> M S B) :
  emits ok 0 m -> (forall x, emits ok n (k x)) -> emits ok n (bind m k).
Proof. intros Hm Hk. exact (emits_bind 0 n m k Hm Hk). Qed.

Lemma emits_try_then {A} n (m : M S A) h :
  emits ok n m -> (forall e, emits ok 0 (h e)) -> emits ok n (try_except m h).
Proof.
  intros Hm Hh. apply emits_weaken with (a := n + 0); [lia |].
  now apply emits_try_except.
Qed.
End Emitting.

Lemma emits_kind {S A} (ok ok' : Event -> bool) n (m : M S A) :
  (forall e, ok e = true -> ok' e = true) -> emits ok n m -> emits ok' n m.
Proof.
  intros Hsub Hm w s tr. destruct (Hm w s tr) as (evs & Etr & Hok & Hel).
  exists evs. repeat split; [exact Etr | | exact Hel].
  rewrite forallb_forall in *. intros e He. apply Hsub. now apply Hok.
Qed.

(** Sequences of steps that do not sleep. *)
Ltac emitting :=
  repeat (intros; unwrap;
          match goal with
          | |- emits _ _ (bind _ _) => apply emits_then
          | |- emits _ _ (try_except _ _) => apply emits_try_then
          | |- emits _ _ (ret _) => apply emits_ret
          | |- emits _ _ (raise _) => apply emits_raise
          | |- emits _ _ get => apply emits_get
          | |- emits _ _ (modify _) => apply emits_modify
          | |- emits _ _ (call _ _ _) =>
              apply emits_call; [reflexivity | simpl; lia]
          | |- emits _ _ (if ?c then _ else _) => destruct c
          | |- emits _ _ (match ?c with _ => _ end) => destruct c
          end).

Section Bounds.
Import ServerManager.

Lemma emits_clock ok n : emits ok n clock.
Proof. intros w s tr. exists []. cbn. rewrite app_nil_r. repeat split. lia. Qed.

Lemma emits_world ok n : emits ok n world.
Proof. intros w s tr. exists []. cbn. rewrite app_nil_r. repeat split. lia. Qed.

Lemma emits_thread_start ok n : ok EThreadStart = true -> emits ok n thread_start.
Proof.
  intros Hok w s tr. exists [EThreadStart]. unfold thread_start.
  destruct (os_thread_start w (length tr)); cbn [out_tr];
    (repeat split; [cbn; now rewrite Hok | cbn; lia]).
Qed.

Lemma emits_send_command command : emits is_stream_io 0 (send_command command).
Proof. unfold send_command. emitting. Qed.

Lemma emits_is_server_running : emits is_poll 0 is_server_running.
Proof. unfold is_server_running. emitting. Qed.

Lemma stream_io_is_stop_call e : is_stream_io e = true -> stop_call e = true.
Proof. destruct e; simpl; auto; discriminate. Qed.

Lemma emits_stop_wait n : emits stop_call n (stop_wait n).
Proof.
  induction n as [| n IH]; simpl; [apply emits_ret |].
  apply emits_then; [emitting |]. intros p.
  apply emits_then; [emitting |]. intros [code |].
  - emitting.
  - apply (emits_bind stop_call 1 n); [emitting | intros _; exact IH].
Qed.

Lemma emits_stop timeout : emits stop_call (2 + Z.to_nat timeout + 2) (stop timeout).
Proof.
  unfold stop.
  apply emits_then; [emitting |]. intros s.
  destruct (negb (is_running s) || negb (is_some (process s))); [emitting |].
  apply emits_try_then; [| emitting].
  apply emits_then; [emitting |]. intros _.
  apply emits_then.
  { apply emits_kind with (ok := is_stream_io);
      [exact stream_io_is_stop_call | apply emits_send_command]. }
  intros _.
  apply emits_weaken with (a := 2 + (Z.to_nat timeout + 2)); [lia |].
  apply emits_bind; [emitting |]. intros _.
  apply emits_then; [emitting |]. intros _.
  apply emits_then.
  { apply emits_kind with (ok := is_stream_io);
      [exact stream_io_is_stop_call | apply emits_send_command]. }
  intros _.
  apply emits_bind; [apply emits_stop_wait |]. intros [b |]; [emitting |].
  apply emits_then; [emitting |]. intros _.
  apply emits_then; [emitting |]. intros s'.
  apply emits_weaken with (a := 2 + 0); [lia |].
  apply emits_bind; [| emitting].
  destruct (is_some (process s')); [| emitting].
  apply emits_then; [emitting |]. intros p.
  apply emits_then; [emitting |]. intros _.
  apply emits_weaken with (a := 2 + 0); [lia |].
  apply emits_bind; [emitting |]. intros _.
  emitting.
Qed.

Lemma emits_start_wait n : emits start_call n (start_wait n).
Proof.
  induction n as [| n IH]; simpl; [apply emits_ret |].
  apply emits_then; [emitting |]. intros s.
  destruct (negb (is_running s)); [emitting |].
  destruct (existsb server_ready_line (console_log s)); [emitting |].
  apply (emits_bind start_call 1 n); [emitting | intros _; exact IH].
Qed.

Lemma emits_start : emits start_call 60 start.
Proof.
  unfold start.
  apply emits_then; [emitting |]. intros s.
  destruct (is_running s); [emitting |].
  apply emits_try_then; [| emitting].
  apply emits_then; [emitting |]. intros s'.
  apply emits_then; [emitting |]. intros p.
  apply emits_then; [emitting |]. intros _.
  apply emits_then; [emitting |]. intros _.
  apply emits_then; [apply emits_clock |]. intros th.
  apply emits_then; [emitting |]. intros _.
  apply emits_then; [now apply emits_thread_start |]. intros _.
  apply emits_then; [emitting |]. intros _.
  apply emits_weaken with (a := max_wait_time + 0); [unfold max_wait_time; lia |].
  apply emits_bind; [apply emits_start_wait |]. intros r.
  emitting.
Qed.

Lemma stop_call_is_restart_call e : stop_call e = true -> restart_call e = true.
Proof. unfold restart_call. intros ->. reflexivity. Qed.

Lemma start_call_is_restart_call e : start_call e = true -> restart_call e = true.
Proof. unfold restart_call. intros ->. apply orb_true_r. Qed.

Lemma emits_restart timeout :
  emits restart_call (2 + Z.to_nat timeout + 2 + 5 + 60) (restart timeout).
Proof.
  unfold restart.
  apply emits_then; [emitting |]. intros _.
  apply emits_weaken with (a := (2 + Z.to_nat timeout + 2) + (5 + 60)); [lia |].
  apply emits_bind.
  { apply emits_kind with (ok := stop_call);
      [exact stop_call_is_restart_call | apply emits_stop]. }
  intros ok. destruct (negb ok); [emitting |].
  apply emits_bind; [emitting |]. intros _.
  apply emits_kind with (ok := start_call);
    [exact start_call_is_restart_call | apply emits_start].
Qed.

Lemma stream_io_is_backup_call e : is_stream_io e = true -> backup_call e = true.
Proof. destruct e; simpl; auto; discriminate. Qed.

Lemma emits_for_each ok {A} (l : list A) body :
  (forall x, emits ok 0 (body x)) -> emits ok 0 (for_each l body).
Proof.
  intros Hb. induction l as [| x l IH]; simpl.
  - apply emits_ret.
  - apply emits_then; auto.
Qed.

Lemma emits_with_ZipFile {A} file (body : Py A) :
  emits backup_call 0 body -> emits backup_call 0 (with_ZipFile file body).
Proof.
  intros Hb. unfold with_ZipFile.
  apply emits_then; [emitting |]. intros _ w s tr.
  destruct (Hb w s tr) as (evs & Etr & Hok & Hel).
  exists (evs ++ [EZipClose]).
  assert (Eclose : out_tr (ZipFile_close w (out_st (body w s tr))
                                         (out_tr (body w s tr)))
                   = tr ++ evs ++ [EZipClose])
    by (cbn; rewrite Etr, <- app_assoc; reflexivity).
  split.
  - destruct (out_res (ZipFile_close w (out_st (body w s tr))
                                     (out_tr (body w s tr)))); exact Eclose.
  - split; [rewrite forallb_app, Hok; reflexivity |].
    rewrite elapsed_app. simpl. lia.
Qed.

Lemma emits_backup_world backup_dir : emits backup_call 5 (backup_world backup_dir).
Proof.
  unfold backup_world.
  apply emits_then; [emitting |]. intros found.
  destruct (negb found); [emitting |].
  apply emits_then; [emitting |]. intros _.
  apply emits_try_then; [| emitting].
  apply emits_then; [emitting |]. intros timestamp.
  apply emits_then; [emitting |]. intros s.
  apply emits_weaken with (a := 5 + 0); [lia |].
  apply emits_bind.
  { destruct (is_running s); [| apply emits_ret].
    apply emits_then; [emitting |]. intros _.
    apply emits_then.
    { apply emits_kind with (ok := is_stream_io);
        [exact stream_io_is_backup_call | apply emits_send_command]. }
    intros _. emitting. }
  intros _.
  apply emits_then; [| emitting].
  apply emits_with_ZipFile.
  apply emits_then; [apply emits_world |]. intros w.
  apply emits_then; [emitting |]. intros tree.
  apply emits_for_each. intros entry.
  apply emits_for_each. intros file.
  emitting.
Qed.
End Bounds.

(** ** Handles and spawns *)

Lemma kind_never_spawns (ok : Event -> bool) (evs : list Event) :
  (forall e, ok e = true -> spawns e = false) ->
  forallb ok evs = true -> existsb spawns evs = false.
Proof.
  intros Hok H. induction evs as [| e evs IH]; simpl in *; [reflexivity |].
  apply andb_true_iff in H. destruct H as [He Hevs].
  rewrite (Hok e He). simpl. now apply IH.
Qed.

Lemma emits_never_spawns {A} (ok : Event -> bool) n (m : ServerManager.Py A) :
  (forall e, ok e = true -> spawns e = false) ->
  emits ok n m ->
  forall w sy tr,
    exists evs, out_tr (m w sy tr) = tr ++ evs /\ existsb spawns evs = false.
Proof.
  intros Hok Hm w sy tr. destruct (Hm w sy tr) as (evs & Etr & Hk & _).
  exists evs. split; [exact Etr | now apply (kind_never_spawns ok)].
Qed.

(** C8 as stated fails, in both of its parts.  After [start()] and [stop()]
    in a world where the child obeys the stop command, [is_running] is clear
    and the [process] attribute still holds the handle of the dead child.  And
    in a world where no child ever exits but the reader thread's [readline]
    raises while the thread is started, the first [start()] leaves
    [is_running] clear with child 100 alive, and the second [start()] spawns
    child 102 beside it: two [Popen] calls, two live children, the supervisor
    holding the handle of the second only. *)
Lemma stale_handle_and_second_spawn :
  let command := ServerManager.start_command ServerManager.default in
  let stopped := fst (ServerManager.run_ops
                        [ServerManager.OStart; ServerManager.OStop 30]
                        obedient_world (ServerManager.fresh, [])) in
  let twice := ServerManager.run_ops
                 [ServerManager.OStart; ServerManager.OStart]
                 reader_dies_world (ServerManager.fresh, []) in
  (ServerManager.process (ServerManager.self stopped) = Some 1 /\
   ServerManager.is_running (ServerManager.self stopped) = false /\
   ~ (ServerManager.process (ServerManager.self stopped) <> None <->
      ServerManager.is_running (ServerManager.self stopped) = true)) /\
  (snd twice = [EPopen command; EThreadStart; EPopen command; EThreadStart]
               ++ repeat (ESleep 1) 60 /\
   os_popen reader_dies_world 0 command = inr 100 /\
   os_popen reader_dies_world 2 command = inr 102 /\
   (forall t p, os_poll reader_dies_world t p = inr None) /\
   ServerManager.process (ServerManager.self (fst twice)) = Some 102 /\
   ServerManager.is_running (ServerManager.self (fst twice)) = true).
Proof.
  cbv zeta. split.
  - vm_compute. split; [reflexivity |]. split; [reflexivity |].
    intros [H _]. assert (E : false = true) by (apply H; discriminate).
    discriminate.
  - split; [vm_compute; reflexivity |].
    split; [reflexivity |]. split; [reflexivity |].
    split; [intros t p; reflexivity |].
    split; vm_compute; reflexivity.
Qed.

(** C8, as the code has it.  Between the public operations of a supervisor,
    whatever operations have been called since its construction and whatever
    the world and the reader thread did, the [process] attribute holds a
    handle whenever [is_running] is set.  A child is spawned only by [start],
    and only when [is_running] is clear at its entry: [start] with
    [is_running] set makes no call; [stop], [send_command],
    [is_server_running] and [backup_world] never spawn a process or a thread
    in any world; and [restart] either is its failed [stop] alone, or is that
    [stop] followed by a sleep of 5 and a [start] entered with [is_running]
    clear. *)
Theorem process_handle_while_running :
  (forall (w : World) (ops : list ServerManager.Op)
          (server_jar min_ram max_ram java_path : string) (server_port : Z),
      let sy := fst (ServerManager.run_ops ops w
                       (ServerManager.mkSys
                          (ServerManager.init server_jar min_ram max_ram
                                              java_path server_port) 0, [])) in
      implb (ServerManager.is_running (ServerManager.self sy))
            (is_some (ServerManager.process (ServerManager.self sy))) = true) /\
  (forall (w : World) (sy : ServerManager.Sys) (tr : list Event),
      ServerManager.is_running (ServerManager.self sy) = true ->
      ServerManager.start w sy tr = mkOut (Ret true) sy tr) /\
  (forall (w : World) (sy : ServerManager.Sys) (tr : list Event)
          (timeout : Z) (command backup_dir : string),
      (exists evs, out_tr (ServerManager.stop timeout w sy tr) = tr ++ evs /\
                   existsb spawns evs = false) /\
      (exists evs, out_tr (ServerManager.send_command command w sy tr) = tr ++ evs /\
                   existsb spawns evs = false) /\
      (exists evs, out_tr (ServerManager.is_server_running w sy tr) = tr ++ evs /\
                   existsb spawns evs = false) /\
      (exists evs, out_tr (ServerManager.backup_world backup_dir w sy tr) = tr ++ evs /\
                   existsb spawns evs = false)) /\
  (forall (w : World) (sy : ServerManager.Sys) (tr : list Event) (timeout : Z),
      handle_while_running sy ->
      let o := ServerManager.stop timeout w sy tr in
      let sy' := interleave ServerManager.reader_turn
                            (os_reader w (length (out_tr o))) (out_st o) in
      (out_res o = Ret false /\ ServerManager.restart timeout w sy tr = o) \/
      (out_res o = Ret true /\
       ServerManager.is_running (ServerManager.self sy') = false /\
       ServerManager.restart timeout w sy tr
       = ServerManager.start w sy' (out_tr o ++ [ESleep 5]))).
Proof.
  split; [| split; [| split]].
  - intros w ops server_jar min_ram max_ram java_path server_port sy.
    assert (H : handle_while_running sy).
    { apply run_ops_keeps_handle. intros Hr. discriminate. }
    unfold handle_while_running in H.
    destruct (ServerManager.is_running (ServerManager.self sy)); [| reflexivity].
    simpl. now apply H.
  - intros w sy tr Hrun. unfold ServerManager.start.
    rewrite (bind_out ServerManager.get_self _ w sy tr
                      (ServerManager.self sy) sy tr eq_refl).
    rewrite Hrun. reflexivity.
  - intros w sy tr timeout command backup_dir.
    split; [| split; [| split]].
    + apply (emits_never_spawns stop_call _ _) with (2 := emits_stop timeout).
      intros e He. destruct e; try reflexivity; discriminate.
    + apply (emits_never_spawns is_stream_io _ _)
        with (2 := emits_send_command command).
      intros e He. destruct e; try reflexivity; discriminate.
    + apply (emits_never_spawns is_poll _ _)
        with (2 := emits_is_server_running).
      intros e He. destruct e; try reflexivity; discriminate.
    + apply (emits_never_spawns backup_call _ _)
        with (2 := emits_backup_world backup_dir).
      intros e He. destruct e; try reflexivity; discriminate.
  - intros w sy tr timeout Hinv o sy'.
    destruct (stop_returns timeout w sy tr) as [ok Hok]. fold o in Hok.
    pose proof (out_eta o) as E. rewrite Hok in E.
    assert (Hhead : ServerManager.restart timeout w sy tr
                    = (if negb ok
                       then ret false
                       else (ServerManager.time_sleep 5 ;; ServerManager.start))
                        w (out_st o) (out_tr o)).
    { unfold ServerManager.restart.
      unfold ServerManager.logger_info. rewrite bind_ret.
      fold o. step E. destruct ok; reflexivity. }
    destruct ok; cbn [negb] in Hhead.
    + right. split; [exact Hok |]. split.
      * apply interleave_not_running.
        now apply (stop_returned timeout w sy tr Hinv true Hok).
      * rewrite Hhead.
        step (time_sleep_out 5 w (out_st o) (out_tr o)). reflexivity.
    + left. split; [exact Hok |]. rewrite Hhead. symmetry. exact E.
Qed.

(** X12. In every world, whatever fails, the calls of [stop(timeout)], its
    logging apart, are calls on the child (write, flush, poll, terminate,
    kill) and sleeps -- it never spawns a process or a thread -- and it sleeps
    at most [2 + timeout + 2] seconds. *)
Theorem stop_calls_bounded :
  forall (timeout : Z) (w : World) (sy : ServerManager.Sys) (tr : list Event),
    exists evs,
      out_tr (ServerManager.stop timeout w sy tr) = tr ++ evs /\
      forallb stop_call evs = true /\
      forallb (fun e => negb (spawns e)) evs = true /\
      elapsed evs <= 2 + Z.to_nat timeout + 2.
Proof.
  intros timeout w sy tr.
  destruct (emits_stop timeout w sy tr) as (evs & Etr & Hok & Hel).
  exists evs. repeat split; [exact Etr | exact Hok | | exact Hel].
  rewrite forallb_forall in *. intros e He.
  specialize (Hok e He). destruct e; try reflexivity; discriminate.
Qed.

(** X13. In every world, [start()] only spawns (a [Popen], a thread start) or
    sleeps: it never writes to, polls or signals a child, and it sleeps at
    most 60 seconds. *)
Theorem start_calls_bounded :
  forall (w : World) (sy : ServerManager.Sys) (tr : list Event),
    exists evs,
      out_tr (ServerManager.start w sy tr) = tr ++ evs /\
      forallb start_call evs = true /\
      forallb (fun e => negb (touches_process e)) evs = true /\
      elapsed evs <= 60.
Proof.
  intros w sy tr.
  destruct (emits_start w sy tr) as (evs & Etr & Hok & Hel).
  exists evs. repeat split; [exact Etr | exact Hok | | exact Hel].
  rewrite forallb_forall in *. intros e He.
  specialize (Hok e He). destruct e; try reflexivity; discriminate.
Qed.

(** X14. In every world, [send_command] makes no call but writes and flushes
    on the child's input, and [is_server_running] no call but polls; neither
    sleeps. *)
Theorem send_and_check_calls_bounded :
  forall (command : string) (w : World) (sy : ServerManager.Sys)
         (tr : list Event),
    (exists evs,
        out_tr (ServerManager.send_command command w sy tr) = tr ++ evs /\
        forallb is_stream_io evs = true /\ elapsed evs = 0) /\
    (exists evs,
        out_tr (ServerManager.is_server_running w sy tr) = tr ++ evs /\
        forallb is_poll evs = true /\ elapsed evs = 0).
Proof.
  intros command w sy tr. split.
  - destruct (emits_send_command command w sy tr) as (evs & Etr & Hok & Hel).
    exists evs. repeat split; [exact Etr | exact Hok | lia].
  - destruct (emits_is_server_running w sy tr) as (evs & Etr & Hok & Hel).
    exists evs. repeat split; [exact Etr | exact Hok | lia].
Qed.

(** X15. In every world, [backup_world] never spawns, polls or signals a
    process, and sleeps at most 5 seconds. *)
Theorem backup_world_calls_bounded :
  forall (backup_dir : string) (w : World) (sy : ServerManager.Sys)
         (tr : list Event),
    exists evs,
      out_tr (ServerManager.backup_world backup_dir w sy tr) = tr ++ evs /\
      forallb backup_call evs = true /\
      elapsed evs <= 5.
Proof. intros backup_dir. exact (emits_backup_world backup_dir). Qed.

(** X16. In every world, [restart(timeout)] sleeps at most
    [2 + timeout + 2] seconds stopping, 5 seconds settling and 60 seconds
    starting, and makes no call but those of [stop] and of [start]. *)
Theorem restart_calls_bounded :
  forall (timeout : Z) (w : World) (sy : ServerManager.Sys) (tr : list Event),
    exists evs,
      out_tr (ServerManager.restart timeout w sy tr) = tr ++ evs /\
      forallb restart_call evs = true /\
      elapsed evs <= 2 + Z.to_nat timeout + 2 + 5 + 60.
Proof. intros timeout. exact (emits_restart timeout). Qed.

(** ** Backups *)
Section Backup.
Import ServerManager.

Lemma write_files_out (w0 : World) (root : string) (files : list string) :
  forall w sy tr,
    (forall t a b, zip_write w t a b = inr tt) ->
    exists sy',
      for_each files
        (fun file =>
           let filepath := path_join root file in
           ZipFile_write filepath (fs_relpath w0 filepath)) w sy tr
      = mkOut (Ret tt) sy' (tr ++ archive_entry w0 (root, files)) /\
      (is_running (self sy) = false -> is_running (self sy') = false).
Proof.
  induction files as [| file files IH]; intros w sy tr Hw.
  - exists sy. simpl. unfold archive_entry. simpl. rewrite app_nil_r. auto.
  - set (ev := EZipWrite (path_join root file)
                         (fs_relpath w0 (path_join root file))).
    destruct (IH w (interleave reader_turn (os_reader w (length tr)) sy)
                 (tr ++ [ev]) Hw) as (sy' & E & Hrun).
    exists sy'. split.
    + simpl for_each. cbv zeta.
      assert (Hwr : ZipFile_write (path_join root file)
                      (fs_relpath w0 (path_join root file)) w sy tr
                    = mkOut (Ret tt)
                        (interleave reader_turn (os_reader w (length tr)) sy)
                        (tr ++ [ev]))
        by (unfold ZipFile_write; apply call_ok; apply Hw).
      step Hwr.
      replace (tr ++ archive_entry w0 (root, file :: files))
        with ((tr ++ [ev]) ++ archive_entry w0 (root, files))
        by (unfold archive_entry; simpl; now rewrite <- app_assoc).
      exact E.
    + intros H. apply Hrun. now apply interleave_not_running.
Qed.

Lemma write_tree_out (w0 : World) (tree : list (string * list string)) :
  forall w sy tr,
    (forall t a b, zip_write w t a b = inr tt) ->
    exists sy',
      for_each tree
        (fun entry =>
           for_each (snd entry)
             (fun file =>
                let filepath := path_join (fst entry) file in
                ZipFile_write filepath (fs_relpath w0 filepath))) w sy tr
      = mkOut (Ret tt) sy' (tr ++ flat_map (archive_entry w0) tree) /\
      (is_running (self sy) = false -> is_running (self sy') = false).
Proof.
  induction tree as [| [root files] tree IH]; intros w sy tr Hw.
  - exists sy. simpl. rewrite app_nil_r. auto.
  - destruct (write_files_out w0 root files w sy tr Hw) as (sy1 & E1 & Hrun1).
    destruct (IH w sy1 (tr ++ archive_entry w0 (root, files)) Hw)
      as (sy' & E & Hrun).
    exists sy'. split; [| auto].
    simpl flat_map. rewrite app_assoc.
    simpl for_each. cbn [fst snd]. step E1. exact E.
Qed.
End Backup.

(** X17. Without a ["world"] directory [backup_world] returns [None] after
    that one check: it creates no directory and no archive and does not
    touch the child. *)
Theorem backup_world_without_world_dir :
  forall (backup_dir : string) (w : World) (sy : ServerManager.Sys)
         (tr : list Event),
    fs_exists w (length tr) "world" = false ->
    ServerManager.backup_world backup_dir w sy tr
    = mkOut (Ret None)
            (interleave ServerManager.reader_turn (os_reader w (length tr)) sy)
            (tr ++ [EExists "world"]).
Proof.
  intros backup_dir w sy tr H. unfold ServerManager.backup_world.
  assert (Hex : ServerManager.path_exists "world" w sy tr
                = mkOut (Ret false)
                    (interleave ServerManager.reader_turn
                                (os_reader w (length tr)) sy)
                    (tr ++ [EExists "world"])).
  { unfold ServerManager.path_exists. apply call_ok. now rewrite H. }
  step Hex. reflexivity.
Qed.

(** X18. On a supervisor that is not running, when the directory exists and
    [makedirs], the opening of the archive, every [zipf.write] and the
    closing succeed, [backup_world] returns the path
    [backup_dir/world_backup_<timestamp>.zip]; it sends no command and does
    not sleep; and it writes to the archive exactly the files listed by
    [os.walk("world")], each once and in the order of the listing, before
    closing it. *)
Theorem backup_world_archives_the_listing :
  forall (backup_dir : string) (w : World) (sy : ServerManager.Sys)
         (tr : list Event),
    let t := length tr in
    let file := path_join backup_dir
                  ("world_backup_" ++ clock_strftime w (t + 2) ++ ".zip")%string in
    ServerManager.is_running (ServerManager.self sy) = false ->
    fs_exists w t "world" = true ->
    fs_makedirs w (t + 1) backup_dir = inr tt ->
    zip_open w (t + 3) file = inr tt ->
    (forall t' a b, zip_write w t' a b = inr tt) ->
    (forall t', zip_close w t' = inr tt) ->
    let o := ServerManager.backup_world backup_dir w sy tr in
    out_res o = Ret (Some file) /\
    out_tr o = tr ++ [EExists "world"; EMakedirs backup_dir; ENow;
                      EZipOpen file; EWalk "world"]
                  ++ flat_map (archive_entry w) (fs_walk w (t + 4) "world")
                  ++ [EZipClose] /\
    ServerManager.is_running (ServerManager.self (out_st o)) = false.
Proof.
  intros backup_dir w sy tr t file Hrun Hex Hmk Hopen Hwrite Hclose o.
  set (step1 := fun (s : ServerManager.Sys) (tr : list Event) =>
                  interleave ServerManager.reader_turn (os_reader w (length tr)) s).
  set (tr1 := tr ++ [EExists "world"]).
  set (tr2 := tr1 ++ [EMakedirs backup_dir]).
  set (tr3 := tr2 ++ [ENow]).
  set (tr4 := tr3 ++ [EZipOpen file]).
  set (tr5 := tr4 ++ [EWalk "world"]).
  set (sy1 := step1 sy tr). set (sy2 := step1 sy1 tr1).
  set (sy3 := step1 sy2 tr2). set (sy4 := step1 sy3 tr3).
  set (sy5 := step1 sy4 tr4).
  assert (L1 : length tr1 = t + 1) by (unfold tr1; rewrite length_app; reflexivity).
  assert (L2 : length tr2 = t + 2)
    by (unfold tr2; rewrite length_app, L1; simpl; lia).
  assert (L3 : length tr3 = t + 3)
    by (unfold tr3; rewrite length_app, L2; simpl; lia).
  assert (L4 : length tr4 = t + 4)
    by (unfold tr4; rewrite length_app, L3; simpl; lia).
  assert (R1 : ServerManager.is_running (ServerManager.self sy1) = false)
    by (apply interleave_not_running; exact Hrun).
  assert (R2 : ServerManager.is_running (ServerManager.self sy2) = false)
    by (apply interleave_not_running; exact R1).
  assert (R3 : ServerManager.is_running (ServerManager.self sy3) = false)
    by (apply interleave_not_running; exact R2).
  assert (R4 : ServerManager.is_running (ServerManager.self sy4) = false)
    by (apply interleave_not_running; exact R3).
  assert (R5 : ServerManager.is_running (ServerManager.self sy5) = false)
    by (apply interleave_not_running; exact R4).
  destruct (write_tree_out w (fs_walk w (t + 4) "world") w sy5 tr5 Hwrite)
    as (sy6 & Etree & R6).
  set (tr6 := tr5 ++ flat_map (archive_entry w) (fs_walk w (t + 4) "world")) in *.
  assert (E : o = mkOut (Ret (Some file)) (step1 sy6 tr6) (tr6 ++ [EZipClose])).
  { subst o. unfold ServerManager.backup_world.
    assert (H1 : ServerManager.path_exists "world" w sy tr
                 = mkOut (Ret true) sy1 tr1)
      by (unfold ServerManager.path_exists; apply call_ok; fold t; now rewrite Hex).
    step H1. cbn [negb].
    assert (H2 : ServerManager.makedirs backup_dir w sy1 tr1
                 = mkOut (Ret tt) sy2 tr2)
      by (unfold ServerManager.makedirs; apply call_ok; rewrite L1; exact Hmk).
    step H2. apply try_except_out.
    assert (H3 : ServerManager.strftime w sy2 tr2
                 = mkOut (Ret (clock_strftime w (t + 2))) sy3 tr3)
      by (unfold ServerManager.strftime; apply call_ok; now rewrite L2).
    step H3. fold file.
    rewrite (bind_out ServerManager.get_self _ w sy3 tr3
                      (ServerManager.self sy3) sy3 tr3 eq_refl).
    rewrite R3. rewrite bind_ret.
    assert (H4 : ServerManager.with_ZipFile file
                   (w0 <- ServerManager.world ;;
                    tree <- ServerManager.os_walk "world" ;;
                    ServerManager.for_each tree
                      (fun entry =>
                         ServerManager.for_each (snd entry)
                           (fun file0 =>
                              let filepath := path_join (fst entry) file0 in
                              ServerManager.ZipFile_write filepath
                                (fs_relpath w0 filepath)))) w sy3 tr3
                 = mkOut (Ret tt) (step1 sy6 tr6) (tr6 ++ [EZipClose])).
    { unfold ServerManager.with_ZipFile.
      assert (H5 : ServerManager.ZipFile_open file w sy3 tr3
                   = mkOut (Ret tt) sy4 tr4)
        by (unfold ServerManager.ZipFile_open; apply call_ok;
            rewrite L3; exact Hopen).
      step H5.
      assert (Hbody : (w0 <- ServerManager.world ;;
                       tree <- ServerManager.os_walk "world" ;;
                       ServerManager.for_each tree
                         (fun entry =>
                            ServerManager.for_each (snd entry)
                              (fun file0 =>
                                 let filepath := path_join (fst entry) file0 in
                                 ServerManager.ZipFile_write filepath
                                   (fs_relpath w0 filepath)))) w sy4 tr4
                      = mkOut (Ret tt) sy6 tr6).
      { rewrite (bind_out ServerManager.world _ w sy4 tr4 w sy4 tr4 eq_refl).
        assert (H6 : ServerManager.os_walk "world" w sy4 tr4
                     = mkOut (Ret (fs_walk w (t + 4) "world")) sy5 tr5)
          by (unfold ServerManager.os_walk; apply call_ok; now rewrite L4).
        step H6. exact Etree. }
      cbv beta zeta. cbv zeta in Hbody. rewrite Hbody.
      cbn [out_st out_tr out_res].
      unfold ServerManager.ZipFile_close, call. rewrite Hclose. reflexivity. }
    step H4. reflexivity. }
  rewrite E. cbn [out_res out_st out_tr].
  split; [reflexivity |]. split.
  - unfold tr6, tr5, tr4, tr3, tr2, tr1. rewrite <- !app_assoc. reflexivity.
  - apply interleave_not_running. now apply R6.
Qed.

(** ** Starting the server from the admin panel *)
Section PanelStart.
Import AdminPanel.

Lemma panel_no_reader obs g :
  readers g = 0 -> interleave reader_turn obs g = g.
Proof.
  intros H. unfold interleave.
  induction obs as [| o obs IH]; simpl; [reflexivity |].
  unfold reader_turn at 2. rewrite H. exact IH.
Qed.

Lemma panel_not_running w g tr :
  server_process g = None -> is_server_running w g tr = mkOut (Ret false) g tr.
Proof.
  intros H. unfold is_server_running.
  rewrite (bind_out get _ w g tr g g tr eq_refl). rewrite H. reflexivity.
Qed.
End PanelStart.

(** X19. [start_server()] of the admin panel, when no process is recorded:
    it never lets an exception reach the caller; it returns [True] exactly
    when [os.chdir], the opening of the log file, [Popen] and the start of
    the reader thread all succeed, and [False] as soon as one of them raises;
    on success it has made these four calls in this order, and, when no
    reader was running before and the new one has had no turn yet, the new
    process is recorded, the output buffer is empty and one reader runs. *)
Theorem start_server_outcome :
  forall (w : World) (g : AdminPanel.Globals) (tr : list Event),
    AdminPanel.server_process g = None ->
    let t := length tr in
    let log := (AdminPanel.SERVER_DIR ++ "\server.log")%string in
    let command := ["java"; "-Xmx2G"; "-Xms1G"; "-jar"; AdminPanel.SERVER_JAR;
                    "nogui"] in
    let o := AdminPanel.start_server w g tr in
    (out_res o = Ret true \/ out_res o = Ret false) /\
    (out_res o = Ret true <->
     fs_chdir w t AdminPanel.SERVER_DIR = inr tt /\
     fs_open w (t + 1) log = inr tt /\
     (exists p, os_popen w (t + 2) command = inr p) /\
     os_thread_start w (t + 3) = inr tt) /\
    (out_res o = Ret true ->
     out_tr o = tr ++ [EChdir AdminPanel.SERVER_DIR; EOpen log; EPopen command;
                       EThreadStart]) /\
    (out_res o = Ret true ->
     AdminPanel.readers g = 0 ->
     os_reader w (t + 3) = [] ->
     (exists p, os_popen w (t + 2) command = inr p /\
                AdminPanel.server_process (out_st o) = Some p) /\
     AdminPanel.server_output_buffer (out_st o) = [] /\
     AdminPanel.readers (out_st o) = 1).
Proof.
  intros w g tr Hnone t log command o.
  set (step1 := fun (s : AdminPanel.Globals) (tr : list Event) =>
                  interleave AdminPanel.reader_turn (os_reader w (length tr)) s).
  set (tr1 := tr ++ [EChdir AdminPanel.SERVER_DIR]).
  set (tr2 := tr1 ++ [EOpen log]).
  set (tr3 := tr2 ++ [EPopen command]).
  set (g1 := step1 g tr).
  set (g2 := step1 (AdminPanel.set_server_output_buffer [] g1) tr1).
  set (g3 := step1 g2 tr2).
  assert (L1 : length tr1 = t + 1) by (unfold tr1; rewrite length_app; reflexivity).
  assert (L2 : length tr2 = t + 2)
    by (unfold tr2; rewrite length_app, L1; simpl; lia).
  assert (L3 : length tr3 = t + 3)
    by (unfold tr3; rewrite length_app, L2; simpl; lia).
  assert (Hhead : o = try_except
                        (AdminPanel.os_chdir AdminPanel.SERVER_DIR ;;
                         modify (AdminPanel.set_server_output_buffer []) ;;
                         AdminPanel.open_file log ;;
                         p <- AdminPanel.subprocess_Popen command ;;
                         modify (AdminPanel.set_server_process (Some p)) ;;
                         th <- AdminPanel.clock ;;
                         modify (AdminPanel.set_server_output_thread (Some th)) ;;
                         AdminPanel.thread_start ;;
                         AdminPanel.console_print
                           "[green]Servidor iniciado correctamente[/green]" ;;
                         ret true)
                        (fun _ =>
                           AdminPanel.console_print
                             "[red]Error al iniciar el servidor[/red]" ;;
                           ret false) w g tr).
  { subst o. unfold AdminPanel.start_server.
    step (panel_not_running w g tr Hnone). reflexivity. }
  destruct (fs_chdir w t AdminPanel.SERVER_DIR) as [e1 | []] eqn:H1.
  { assert (E : o = mkOut (Ret false) g1 tr1).
    { rewrite Hhead. erewrite try_except_raised; [reflexivity |].
      apply bind_raised. unfold AdminPanel.os_chdir. apply call_failed. exact H1. }
    rewrite E. cbn [out_res out_tr out_st].
    split; [now right |]. split; [| split; discriminate].
    split; [discriminate | intros (F & _); discriminate]. }
  assert (S1 : AdminPanel.os_chdir AdminPanel.SERVER_DIR w g tr
               = mkOut (Ret tt) g1 tr1)
    by (unfold AdminPanel.os_chdir; apply call_ok; exact H1).
  destruct (fs_open w (t + 1) log) as [e2 | []] eqn:H2.
  { assert (E : o = mkOut (Ret false) g2 tr2).
    { rewrite Hhead. erewrite try_except_raised; [reflexivity |].
      step S1. rewrite bind_out with (a := tt)
                                     (s' := AdminPanel.set_server_output_buffer [] g1)
                                     (tr' := tr1) by reflexivity.
      apply bind_raised. unfold AdminPanel.open_file. apply call_failed.
      rewrite L1. exact H2. }
    rewrite E. cbn [out_res out_tr out_st].
    split; [now right |]. split; [| split; discriminate].
    split; [discriminate | intros (_ & F & _); discriminate]. }
  assert (S2 : AdminPanel.open_file log w
                 (AdminPanel.set_server_output_buffer [] g1) tr1
               = mkOut (Ret tt) g2 tr2)
    by (unfold AdminPanel.open_file; apply call_ok; rewrite L1; exact H2).
  destruct (os_popen w (t + 2) command) as [e3 | p] eqn:H3.
  { assert (E : o = mkOut (Ret false) g3 tr3).
    { rewrite Hhead. erewrite try_except_raised; [reflexivity |].
      step S1. rewrite bind_out with (a := tt)
                                     (s' := AdminPanel.set_server_output_buffer [] g1)
                                     (tr' := tr1) by reflexivity.
      step S2.
      apply bind_raised. unfold AdminPanel.subprocess_Popen. apply call_failed.
      rewrite L2. exact H3. }
    rewrite E. cbn [out_res out_tr out_st].
    split; [now right |]. split; [| split; discriminate].
    split; [discriminate | intros (_ & _ & [q F] & _); discriminate]. }
  assert (S3 : AdminPanel.subprocess_Popen command w g2 tr2 = mkOut (Ret p) g3 tr3)
    by (unfold AdminPanel.subprocess_Popen; apply call_ok; rewrite L2; exact H3).
  set (g4 := AdminPanel.set_server_output_thread (Some (length tr3))
               (AdminPanel.set_server_process (Some p) g3)).
  destruct (os_thread_start w (t + 3)) as [e4 | []] eqn:H4.
  { assert (E : o = mkOut (Ret false) (step1 g4 tr3) (tr3 ++ [EThreadStart])).
    { rewrite Hhead. erewrite try_except_raised; [reflexivity |].
      step S1. rewrite bind_out with (a := tt)
                                     (s' := AdminPanel.set_server_output_buffer [] g1)
                                     (tr' := tr1) by reflexivity.
      step S2. step S3.
      rewrite bind_out with (a := tt)
                            (s' := AdminPanel.set_server_process (Some p) g3)
                            (tr' := tr3) by reflexivity.
      rewrite bind_out with (a := length tr3)
                            (s' := AdminPanel.set_server_process (Some p) g3)
                            (tr' := tr3) by reflexivity.
      rewrite bind_out with (a := tt) (s' := g4) (tr' := tr3) by reflexivity.
      apply bind_raised. unfold AdminPanel.thread_start, step1.
      rewrite L3, H4. reflexivity. }
    rewrite E. cbn [out_res out_tr out_st].
    split; [now right |]. split; [| split; discriminate].
    split; [discriminate | intros (_ & _ & _ & F); discriminate]. }
  set (g5 := step1 (AdminPanel.set_readers (S (AdminPanel.readers g4)) g4) tr3).
  assert (E : o = mkOut (Ret true) g5 (tr3 ++ [EThreadStart])).
  { rewrite Hhead. apply try_except_out.
    step S1. rewrite bind_out with (a := tt)
                                   (s' := AdminPanel.set_server_output_buffer [] g1)
                                   (tr' := tr1) by reflexivity.
    step S2. step S3.
    rewrite bind_out with (a := tt)
                          (s' := AdminPanel.set_server_process (Some p) g3)
                          (tr' := tr3) by reflexivity.
    rewrite bind_out with (a := length tr3)
                          (s' := AdminPanel.set_server_process (Some p) g3)
                          (tr' := tr3) by reflexivity.
    rewrite bind_out with (a := tt) (s' := g4) (tr' := tr3) by reflexivity.
    assert (S4 : AdminPanel.thread_start w g4 tr3
                 = mkOut (Ret tt) g5 (tr3 ++ [EThreadStart]))
      by (unfold AdminPanel.thread_start, g5, step1; rewrite L3, H4;
          reflexivity).
    step S4. reflexivity. }
  rewrite E. cbn [out_res out_tr out_st].
  split; [now left |]. split; [| split].
  - split; [intros _ | reflexivity].
    split; [reflexivity |]. split; [reflexivity |]. split; [now exists p | reflexivity].
  - intros _. unfold tr3, tr2, tr1. rewrite <- !app_assoc. reflexivity.
  - intros _ Hr Hidle.
    assert (G1 : g1 = g) by (apply panel_no_reader; exact Hr).
    assert (G2 : g2 = AdminPanel.set_server_output_buffer [] g)
      by (unfold g2, step1; rewrite G1; apply panel_no_reader; exact Hr).
    assert (G3 : g3 = AdminPanel.set_server_output_buffer [] g)
      by (unfold g3, step1; rewrite G2; apply panel_no_reader; exact Hr).
    assert (G5 : g5 = AdminPanel.set_readers (S (AdminPanel.readers g4)) g4)
      by (unfold g5, step1; rewrite L3, Hidle; reflexivity).
    rewrite G5. unfold g4. rewrite G3. cbn. rewrite Hr.
    split; [exists p; auto | auto].
Qed.

(** ** Reading [server.properties] *)
Section Properties.
Import ServerProperties.

Lemma split_once_key (k v : string) :
  split_once "="%char k = None ->
  split_once "="%char (k ++ String "="%char v)%string = Some (k, v).
Proof.
  induction k as [| c k IH]; intros H; simpl in *.
  - reflexivity.
  - destruct (Ascii.eqb c "="%char); [discriminate |].
    destruct (split_once "="%char k) as [[a b] |]; [discriminate |].
    rewrite IH by reflexivity. reflexivity.
Qed.

Lemma dict_get_set k v d : dict_get k (dict_set k v d) = Some v.
Proof.
  induction d as [| [k' v'] d IH]; simpl.
  - now rewrite String.eqb_refl.
  - destruct (String.eqb k k') eqn:E; simpl; rewrite E; [reflexivity | exact IH].
Qed.

Lemma dict_get_set_other k k' v d :
  k' <> k -> dict_get k' (dict_set k v d) = dict_get k' d.
Proof.
  intros Hne. induction d as [| [k0 v0] d IH]; simpl.
  - apply String.eqb_neq in Hne. now rewrite Hne.
  - destruct (String.eqb k k0) eqn:E; simpl.
    + apply String.eqb_eq in E. subst k0.
      apply String.eqb_neq in Hne. now rewrite Hne.
    + destruct (String.eqb k' k0); [reflexivity | exact IH].
Qed.

Lemma read_line_ignored properties line :
  strip line = EmptyString \/ String.prefix "#" (strip line) = true ->
  read_line properties line = properties.
Proof.
  intros [H | H]; unfold read_line; rewrite H.
  - reflexivity.
  - now rewrite andb_false_r.
Qed.
End Properties.

(** X20. In [get_server_properties] the last line [key=value] for a key
    decides its value: when the file is read to its end, a last line that is
    already stripped, is not a comment, and whose key has no ['='] sets [key]
    to everything after the first ['='] -- which may itself contain ['='] --
    and leaves every other key as the lines before it had set it. *)
Theorem last_property_line_wins :
  forall (lines : list string) (key value : string),
    let line := (key ++ String "="%char value)%string in
    strip line = line ->
    String.prefix "#" line = false ->
    ServerProperties.split_once "="%char key = None ->
    let before := ServerProperties.get_server_properties
                    (ServerProperties.Readable lines None) in
    let after := ServerProperties.get_server_properties
                   (ServerProperties.Readable (lines ++ [line]) None) in
    ServerProperties.dict_get key after = Some value /\
    forall other, other <> key ->
                  ServerProperties.dict_get other after
                  = ServerProperties.dict_get other before.
Proof.
  intros lines key value line Hstrip Hcomment Hkey before after.
  assert (E : after = ServerProperties.dict_set key value before).
  { subst after before. cbn [ServerProperties.get_server_properties].
    rewrite fold_left_app. cbn [fold_left].
    unfold ServerProperties.read_line at 1. cbv zeta.
    rewrite Hstrip, Hcomment.
    assert (Ht : truthy line = true) by (unfold line; destruct key; reflexivity).
    rewrite Ht. cbn [andb negb].
    unfold line. now rewrite split_once_key. }
  rewrite E. split.
  - apply dict_get_set.
  - intros other Hne. now apply dict_get_set_other.
Qed.

(** X21. A line that is blank once stripped, a comment line (['#'] first
    once stripped, whatever white space precedes it) and a line without ['=']
    do not change what [get_server_properties] returns, wherever they stand
    in the file. *)
Theorem comments_and_blanks_are_ignored :
  forall (front back : list string) (line : string),
    strip line = EmptyString \/
    String.prefix "#" (strip line) = true \/
    ServerProperties.split_once "="%char (strip line) = None ->
    ServerProperties.get_server_properties
      (ServerProperties.Readable (front ++ line :: back) None)
    = ServerProperties.get_server_properties
        (ServerProperties.Readable (front ++ back) None).
Proof.
  intros front back line H.
  cbn [ServerProperties.get_server_properties].
  rewrite !fold_left_app. cbn [fold_left]. f_equal.
  destruct H as [H | [H | H]].
  - apply read_line_ignored. now left.
  - apply read_line_ignored. now right.
  - unfold ServerProperties.read_line. cbv zeta. rewrite H.
    destruct (truthy (strip line) && negb (String.prefix "#" (strip line)));
      reflexivity.
Qed.

(** * The further properties at concrete inputs *)

Lemma get_console_output_after_appends_witness :
  length (ServerManager.console_log ServerManager.default)
  <= ServerManager.max_console_lines ServerManager.default /\
  (0 < 2)%Z /\
  Z.to_nat 2 <= ServerManager.max_console_lines ServerManager.default /\
  ServerManager.get_console_output 2
    (ServerManager.set_console_log
       (fold_left (append_line 1000) ["a"; "b"; "c"] []) ServerManager.default)
  = ["b"; "c"].
Proof.
  assert (H1 : length (ServerManager.console_log ServerManager.default)
               <= ServerManager.max_console_lines ServerManager.default)
    by (simpl; lia).
  assert (H2 : (0 < 2)%Z) by lia.
  assert (H3 : Z.to_nat 2 <= ServerManager.max_console_lines ServerManager.default)
    by (simpl; lia).
  split; [exact H1 |]. split; [exact H2 |]. split; [exact H3 |].
  exact (get_console_output_after_appends ServerManager.default
           ["a"; "b"; "c"] 2 H1 H2 H3).
Defined.

Lemma output_buffer_has_no_blank_line_witness :
  Forall nonblank (AdminPanel.server_output_buffer running_panel) /\
  Forall nonblank
    (AdminPanel.server_output_buffer
       (interleave AdminPanel.reader_turn
          [ {| ro_poll := inr None; ro_line := inr ("hello" ++ newline)%string |};
            {| ro_poll := inr None; ro_line := inr ("  " ++ newline)%string |} ]
          running_panel)).
Proof.
  assert (H : Forall nonblank (AdminPanel.server_output_buffer running_panel))
    by constructor.
  split; [exact H |].
  apply (output_buffer_has_no_blank_line _ running_panel H).
Defined.

Lemma reader_end_forgets_process_witness :
  AdminPanel.readers running_panel = 1 /\
  AdminPanel.server_process
    (AdminPanel.reader_turn
       {| ro_poll := inr None; ro_line := inr EmptyString |} running_panel)
  = None.
Proof.
  split; [reflexivity |].
  apply (reader_end_forgets_process
           {| ro_poll := inr None; ro_line := inr EmptyString |}
           running_panel 0 eq_refl (or_introl eq_refl)).
Defined.

Lemma is_server_running_corrects_flag_witness :
  ServerManager.is_running (ServerManager.self running_server) = true /\
  ServerManager.process (ServerManager.self running_server) = Some 1 /\
  out_tr (ServerManager.is_server_running stubborn_world running_server [])
  = [EPoll 1].
Proof.
  split; [reflexivity |]. split; [reflexivity |].
  apply (is_server_running_corrects_flag stubborn_world running_server [] 1
           eq_refl eq_refl).
Defined.

Lemma restart_gives_up_when_stop_fails_witness :
  out_res (ServerManager.stop 5 failing_poll_world running_server []) = Ret false /\
  ServerManager.restart 5 failing_poll_world running_server []
  = ServerManager.stop 5 failing_poll_world running_server [].
Proof.
  split; [reflexivity |].
  apply (restart_gives_up_when_stop_fails 5 failing_poll_world running_server []).
  reflexivity.
Defined.

Lemma restart_when_not_running_witness :
  ServerManager.is_running (ServerManager.self ServerManager.fresh) = false /\
  ServerManager.restart 30 no_java_world ServerManager.fresh []
  = ServerManager.start no_java_world ServerManager.fresh [ESleep 5].
Proof.
  split; [reflexivity |].
  apply (restart_when_not_running 30 no_java_world ServerManager.fresh []).
  reflexivity.
Defined.

Lemma running_server_has_handle : handle_while_running running_server.
Proof. intros _. reflexivity. Defined.

Lemma stop_success_clears_running_witness :
  handle_while_running running_server /\
  out_res (ServerManager.stop 5 stubborn_world running_server []) = Ret true /\
  ServerManager.is_running
    (ServerManager.self
       (out_st (ServerManager.stop 5 stubborn_world running_server []))) = false.
Proof.
  split; [exact running_server_has_handle |]. split; [reflexivity |].
  apply (stop_success_clears_running 5 stubborn_world running_server []
           running_server_has_handle).
  reflexivity.
Defined.

Lemma failed_start_is_not_running_witness :
  out_res (ServerManager.start no_java_world ServerManager.fresh []) = Ret false /\
  ServerManager.is_running
    (ServerManager.self
       (out_st (ServerManager.start no_java_world ServerManager.fresh [])))
  = false.
Proof.
  split; [reflexivity |].
  apply (failed_start_is_not_running no_java_world ServerManager.fresh []).
  reflexivity.
Defined.

Lemma backup_world_without_world_dir_witness :
  fs_exists no_world_dir_world 0 "world" = false /\
  ServerManager.backup_world "backups" no_world_dir_world ServerManager.fresh []
  = mkOut (Ret None) ServerManager.fresh [EExists "world"].
Proof.
  split; [reflexivity |].
  apply (backup_world_without_world_dir "backups" no_world_dir_world
           ServerManager.fresh []).
  reflexivity.
Defined.

Lemma backup_world_archives_the_listing_witness :
  ServerManager.is_running (ServerManager.self ServerManager.fresh) = false /\
  out_res (ServerManager.backup_world "backups" stubborn_world
                                      ServerManager.fresh [])
  = Ret (Some "backups/world_backup_20240101_120000.zip") /\
  out_tr (ServerManager.backup_world "backups" stubborn_world
                                     ServerManager.fresh [])
  = [EExists "world"; EMakedirs "backups"; ENow;
     EZipOpen "backups/world_backup_20240101_120000.zip"; EWalk "world";
     EZipWrite "world/level.dat" "world/level.dat"; EZipClose].
Proof.
  split; [reflexivity |].
  destruct (backup_world_archives_the_listing "backups" stubborn_world
              ServerManager.fresh [] eq_refl eq_refl eq_refl eq_refl
              (fun _ _ _ => eq_refl) (fun _ => eq_refl)) as (H1 & H2 & _).
  split; [exact H1 | exact H2].
Defined.

Lemma start_server_outcome_witness :
  AdminPanel.server_process AdminPanel.initial = None /\
  out_res (AdminPanel.start_server stubborn_world AdminPanel.initial [])
  = Ret true /\
  out_res (AdminPanel.start_server no_java_world AdminPanel.initial [])
  = Ret false.
Proof.
  split; [reflexivity |].
  destruct (start_server_outcome stubborn_world AdminPanel.initial [] eq_refl)
    as (_ & Hyes & _).
  destruct (start_server_outcome no_java_world AdminPanel.initial [] eq_refl)
    as ([Hno | Hno] & Hiff & _).
  - apply Hiff in Hno. destruct Hno as (_ & _ & [p Hp] & _). discriminate.
  - split; [| exact Hno].
    apply Hyes. split; [reflexivity |]. split; [reflexivity |].
    split; [exists 1; reflexivity | reflexivity].
Defined.

Lemma last_property_line_wins_witness :
  strip "server-port=25566" = "server-port=25566" /\
  String.prefix "#" "server-port=25566" = false /\
  ServerProperties.split_once "="%char "server-port" = None /\
  ServerProperties.dict_get "server-port"
    (ServerProperties.get_server_properties
       (ServerProperties.Readable
          ["#Minecraft server properties"; "server-port=25565";
           "motd=A=B"; "server-port=25566"] None))
  = Some "25566".
Proof.
  split; [reflexivity |]. split; [reflexivity |]. split; [reflexivity |].
  exact (proj1 (last_property_line_wins
                  ["#Minecraft server properties"; "server-port=25565";
                   "motd=A=B"]
                  "server-port" "25566" eq_refl eq_refl eq_refl)).
Defined.

Lemma comments_and_blanks_are_ignored_witness :
  let line := String (ascii_of_nat 194) (String (ascii_of_nat 160) "# a comment") in
  (strip line = EmptyString \/
   String.prefix "#" (strip line) = true \/
   ServerProperties.split_once "="%char (strip line) = None) /\
  ServerProperties.get_server_properties
    (ServerProperties.Readable ["motd=hi"; line; "pvp=true"] None)
  = ServerProperties.get_server_properties
      (ServerProperties.Readable ["motd=hi"; "pvp=true"] None).
Proof.
  cbv zeta.
  assert (H : strip (String (ascii_of_nat 194) (String (ascii_of_nat 160) "# a comment")) = EmptyString \/
              String.prefix "#" (strip (String (ascii_of_nat 194) (String (ascii_of_nat 160) "# a comment"))) = true \/
              ServerProperties.split_once "="%char (strip (String (ascii_of_nat 194) (String (ascii_of_nat 160) "# a comment"))) = None)
    by (right; left; reflexivity).
  split; [exact H |].
  apply (comments_and_blanks_are_ignored ["motd=hi"] ["pvp=true"] _ H).
Defined.
